(** * legalms.server: identifier allocation and derived totals in the
      Mongoose save hooks

    A shallow embedding of the [pre('save')] middleware of
    [src/models/Case.model.js] and [src/models/Billing.model.js]:

    - [caseSchema.pre('save')]        (case number generation),
    - [invoiceItemSchema.pre('save')] (item amount),
    - [invoiceSchema.pre('save')]     (total amount, then invoice number).

    JavaScript strings are [string]; the integers that the code renders
    (a document count, a year, an epoch-millisecond timestamp) are [Z];
    monetary [Number] fields are binary64 [float]s.  The hooks read the
    system clock, query their collection and may see that query throw:
    they are written in a small state-and-exception monad over a world
    that holds the clock, the store and a trace of the queries issued and
    of the calls of [next].  A clock reading carries the epoch
    milliseconds and the local year side by side, nothing relates the
    two.  A document has the fields that the hooks read or write,
    for a Case one more that they must leave alone, and the verdict of
    validation on the paths that the model does not carry.

    A save is the validation of the document, which Mongoose runs
    before any [pre('save')] hook, then the hooks, then the insert under
    the unique index that ends the save of a new document.  Validation
    checks the validators that the schemas declare on the paths of the
    model ([required] on [title] and [invoiceNumber], [required] and
    [min] on the amounts); the verdict on the paths that the model
    leaves out is a field of the document.  The facts about the hooks
    are stated on the hooks, for whatever document they are handed; the
    facts about a save are stated on the save.

    After the hooks come their callers: [timeEntrySchema.pre('save')],
    the handlers of [src/routes/billing.routes.js] and of the case
    routes that list cases, invoices and time entries (up to the filter
    of their query), and the two handlers that create cases, one by one
    and in bulk. *)

From Stdlib Require Import ZArith NArith List String Ascii Bool Lia Floats.
Import ListNotations.

Local Open Scope string_scope.

(** ** Strings *)

Module Str.

(** [drop n s]: [s] without its first [n] characters. *)
Fixpoint drop (n : nat) (s : string) : string :=
  match n, s with
  | O, _ => s
  | S _, EmptyString => EmptyString
  | S n', String _ r => drop n' r
  end.

(** [String.prototype.slice(start)] with one argument: a negative
    [start] counts from the end and is clamped at the beginning of the
    string, a positive one is clamped at its end. *)
Definition slice (start : Z) (s : string) : string :=
  let len := Z.of_nat (String.length s) in
  let from := if (start <? 0)%Z then Z.max (len + start) 0
              else Z.min start len in
  drop (Z.to_nat from) s.

(** The filler of [padStart]: [padString] repeated and cut to [k]
    characters ([rest] is what remains of the current repetition). *)
Fixpoint filler (k : nat) (padString rest : string) : string :=
  match k with
  | O => ""
  | S k' =>
      match rest with
      | String c r => String c (filler k' padString r)
      | EmptyString =>
          match padString with
          | String c r => String c (filler k' padString r)
          | EmptyString => ""
          end
      end
  end.

(** [String.prototype.padStart(targetLength, padString)]: a string that
    is already long enough is returned as it is. *)
Definition padStart (targetLength : nat) (padString s : string) : string :=
  if Nat.leb targetLength (String.length s) then s
  else filler (targetLength - String.length s) padString padString ++ s.

Definition isDigit (c : ascii) : bool :=
  ((48 <=? N_of_ascii c) && (N_of_ascii c <=? 57))%N.

(** [allDigits s]: every character of [s] is one of 0..9, the regular
    expression class [\d]. *)
Fixpoint allDigits (s : string) : bool :=
  match s with
  | EmptyString => true
  | String c r => isDigit c && allDigits r
  end.

(** The number that a string of decimal digits denotes, read left to
    right from the accumulator [acc]. *)
Fixpoint valueFrom (acc : N) (s : string) : N :=
  match s with
  | EmptyString => acc
  | String c r => valueFrom (10 * acc + (N_of_ascii c - 48)) r
  end.

Definition value (s : string) : N := valueFrom 0 s.

End Str.

(** ** Numbers to strings *)

Module Num.

Definition digitChar (d : N) : ascii := ascii_of_N (48 + d).

(** Decimal digits of [n], most significant first; [fuel] bounds the
    number of digits. *)
Fixpoint digits (fuel : nat) (n : N) : string :=
  match fuel with
  | O => ""
  | S f =>
      if (n <? 10)%N then String (digitChar n) ""
      else digits f (n / 10) ++ String (digitChar (n mod 10)) ""
  end.

Definition decimal (n : N) : string := digits (S (N.to_nat (N.size n))) n.

(** [Number.prototype.toString()] and [String(n)] on an integer, as in
    the template literals of the hooks. *)
Definition toString (z : Z) : string :=
  match z with
  | Z0 => "0"
  | Zpos p => decimal (Npos p)
  | Zneg p => "-" ++ decimal (Npos p)
  end.

End Num.

(** ** The world a hook runs in *)

(** One reading of the system clock: [Date.now()] gives the epoch
    milliseconds, [new Date().getFullYear()] the year in the host's time
    zone. *)
Record Instant := mkInstant { epochMillis : Z; fullYear : Z }.

(** [new RegExp(`^${literal}`)] for a [literal] without metacharacters,
    which is what the hooks build from a prefix, a year and hyphens. *)
Inductive RegExp := StartsWith (literal : string).

Definition test (re : RegExp) (s : string) : bool :=
  match re with StartsWith literal => String.prefix literal s end.

(** A query [{ field: re }] selects the documents whose field is a string
    that [re] matches; a document without the field is not selected. *)
Definition fieldMatches (re : RegExp) (field : option string) : bool :=
  match field with
  | Some s => test re s
  | None => false
  end.

Inductive Kind := Case | Invoice.

(** What a save or a query can reject with: the store does not answer,
    the unique index holds the key, the document does not pass the
    validation of its schema, a value does not cast to the type of its
    path. *)
Inductive Error :=
| StorageError
| DuplicateKey
| ValidationError
| CastError.

Inductive Event :=
| CountDocuments (model : Kind) (re : RegExp)
| Next (err : option Error).

Record InvoiceItem := mkItem {
  quantity : float;
  rate : float;
  amount : float;
  item_isModified : string -> bool }.

(** Of the paths of [caseSchema] a [CaseDoc] carries [caseNumber] and
    [title]; [case_others] says whether the paths it leaves out
    (description, status, priority, caseType, clientId, assignedLawyerId,
    courtName, filingDate, nextHearingDate, customFields, documents,
    timeline, createdBy) pass their casts and validators. *)
Record CaseDoc := mkCase {
  case_isNew : bool;
  caseNumber : option string;
  title : string;
  case_others : bool }.

(** Of the paths of [invoiceSchema] an [InvoiceDoc] carries
    [invoiceNumber], [totalAmount] and, of its items, [quantity], [rate]
    and [amount], each holding a number; [invoice_others] says whether
    the paths it leaves out (clientId, issueDate, dueDate, status,
    caseIds, createdBy, and caseId, description and timeEntryIds of the
    items) pass their casts and validators. *)
Record InvoiceDoc := mkInvoice {
  invoice_isNew : bool;
  invoiceNumber : option string;
  totalAmount : float;
  items : list InvoiceItem;
  invoice_isModified : string -> bool;
  invoice_others : bool }.

Record World := mkWorld {
  clock : nat -> Instant;        (* the successive readings of the clock *)
  reads : nat;                   (* how many have been taken *)
  answers : nat -> bool;         (* whether the store answers a request *)
  requests : nat;                (* how many requests it has received *)
  cases : list CaseDoc;          (* the Case collection *)
  invoices : list InvoiceDoc;    (* the Invoice collection *)
  trace : list Event }.          (* queries issued and calls of next *)

(** The store answers the request that comes next. *)
Definition online (w : World) : bool := answers w (requests w).

(** ** State and exceptions *)

Inductive Result (A : Type) :=
| Ok (a : A)
| Throw (e : Error).

Arguments Ok {A} a.
Arguments Throw {A} e.

Definition M (A : Type) : Type := World -> Result A * World.

Definition ret {A} (a : A) : M A := fun w => (Ok a, w).

Definition bind {A B} (m : M A) (k : A -> M B) : M B :=
  fun w =>
    match m w with
    | (Ok a, w') => k a w'
    | (Throw e, w') => (Throw e, w')
    end.

(** [try { body } catch (error) { handler }]: what [body] did to the
    world before it threw stays done. *)
Definition tryCatch {A} (body : M A) (handler : Error -> M A) : M A :=
  fun w =>
    match body w with
    | (Ok a, w') => (Ok a, w')
    | (Throw e, w') => handler e w'
    end.

Declare Scope hook_scope.
Delimit Scope hook_scope with hook.
Notation "x <- m ;; k" := (bind m (fun x => k))
  (at level 61, m at next level, right associativity) : hook_scope.
Notation "m ;;; k" := (bind m (fun _ => k))
  (at level 61, right associativity) : hook_scope.
Local Open Scope hook_scope.

Definition tick (w : World) : World :=
  mkWorld (clock w) (S (reads w)) (answers w) (requests w) (cases w)
          (invoices w) (trace w).

Definition asked (w : World) : World :=
  mkWorld (clock w) (reads w) (answers w) (S (requests w)) (cases w)
          (invoices w) (trace w).

Definition record (ev : Event) (w : World) : World :=
  mkWorld (clock w) (reads w) (answers w) (requests w) (cases w)
          (invoices w) (trace w ++ [ev]).

(** [new Date()] *)
Definition newDate : M Instant := fun w => (Ok (clock w (reads w)), tick w).

Definition getFullYear (d : Instant) : Z := fullYear d.

(** [Date.now()] *)
Definition Date_now : M Z :=
  fun w => (Ok (epochMillis (clock w (reads w))), tick w).

(** The identifier column of a collection. *)
Definition numbers (model : Kind) (w : World) : list (option string) :=
  match model with
  | Case => map caseNumber (cases w)
  | Invoice => map invoiceNumber (invoices w)
  end.

Definition countMatching (re : RegExp) (column : list (option string)) : Z :=
  Z.of_nat (List.length (filter (fieldMatches re) column)).

(** [Model.countDocuments({ number: re })]: rejects when the store does
    not answer. *)
Definition countDocuments (model : Kind) (re : RegExp) : M Z :=
  fun w =>
    let w' := record (CountDocuments model re) (asked w) in
    if online w then (Ok (countMatching re (numbers model w)), w')
    else (Throw StorageError, w').

(** [next(err)] *)
Definition next (err : option Error) : M unit :=
  fun w => (Ok tt, record (Next err) w).

(** [!value] on a field that holds a string or is undefined. *)
Definition not_ (value : option string) : bool :=
  match value with
  | None => true
  | Some EmptyString => true
  | Some (String _ _) => false
  end.

(** ** [src/models/Case.model.js] *)

Definition set_caseNumber (this : CaseDoc) (v : string) : CaseDoc :=
  mkCase (case_isNew this) (Some v) (title this) (case_others this).

(** [caseSchema.pre('save', async function(next) { ... })] *)
Definition case_pre_save (this : CaseDoc) : M CaseDoc :=
  this <-
    (if case_isNew this && not_ (caseNumber this) then
       tryCatch
         (d <- newDate ;;
          let year := getFullYear d in
          count <- countDocuments Case
                     (StartsWith ("CASE-" ++ Num.toString year ++ "-")) ;;
          ret (set_caseNumber this
                 ("CASE-" ++ Num.toString year ++ "-"
                    ++ Str.padStart 4 "0" (Num.toString (count + 1)))))
         (fun error =>
            d <- newDate ;;
            let year := getFullYear d in
            now <- Date_now ;;
            let timestamp := Str.slice (-4) (Num.toString now) in
            ret (set_caseNumber this
                   ("CASE-" ++ Num.toString year ++ "-" ++ timestamp)))
     else ret this) ;;
  next None ;;;
  ret this.

(** ** [src/models/Billing.model.js] *)

Definition set_amount (this : InvoiceItem) (v : float) : InvoiceItem :=
  mkItem (quantity this) (rate this) v (item_isModified this).

(** [invoiceItemSchema.pre('save', function(next) { ... })] *)
Definition invoiceItem_pre_save (this : InvoiceItem) : M InvoiceItem :=
  this <-
    (if item_isModified this "quantity" || item_isModified this "rate" then
       ret (set_amount this (quantity this * rate this)%float)
     else ret this) ;;
  next None ;;;
  ret this.

(** [Array.prototype.reduce(callback, initialValue)] *)
Definition reduce {A B} (callback : B -> A -> B) (initialValue : B)
  (array : list A) : B :=
  fold_left callback array initialValue.

Definition set_totalAmount (this : InvoiceDoc) (v : float) : InvoiceDoc :=
  mkInvoice (invoice_isNew this) (invoiceNumber this) v (items this)
            (invoice_isModified this) (invoice_others this).

Definition set_invoiceNumber (this : InvoiceDoc) (v : string) : InvoiceDoc :=
  mkInvoice (invoice_isNew this) (Some v) (totalAmount this) (items this)
            (invoice_isModified this) (invoice_others this).

Definition set_items (this : InvoiceDoc) (v : list InvoiceItem) : InvoiceDoc :=
  mkInvoice (invoice_isNew this) (invoiceNumber this) (totalAmount this) v
            (invoice_isModified this) (invoice_others this).

(** The first [invoiceSchema.pre('save', ...)]: total amount. *)
Definition invoice_pre_save_total (this : InvoiceDoc) : M InvoiceDoc :=
  this <-
    (if invoice_isModified this "items" then
       ret (set_totalAmount this
              (reduce (fun sum item => (sum + amount item)%float) 0%float
                      (items this)))
     else ret this) ;;
  next None ;;;
  ret this.

(** The second [invoiceSchema.pre('save', ...)]: invoice number. *)
Definition invoice_pre_save_number (this : InvoiceDoc) : M InvoiceDoc :=
  this <-
    (if not_ (invoiceNumber this) then
       tryCatch
         (d <- newDate ;;
          let year := getFullYear d in
          count <- countDocuments Invoice
                     (StartsWith ("INV-" ++ Num.toString year ++ "-")) ;;
          ret (set_invoiceNumber this
                 ("INV-" ++ Num.toString year ++ "-"
                    ++ Str.padStart 4 "0" (Num.toString (count + 1)))))
         (fun error =>
            d <- newDate ;;
            let year := getFullYear d in
            ret (set_invoiceNumber this
                   ("INV-" ++ Num.toString year ++ "-0001")))
     else ret this) ;;
  next None ;;;
  ret this.

(** ** Saving an entity *)

Inductive Entity :=
| ACase (c : CaseDoc)
| AnInvoice (i : InvoiceDoc).

Definition kindOf (e : Entity) : Kind :=
  match e with ACase _ => Case | AnInvoice _ => Invoice end.

Definition identifier (e : Entity) : option string :=
  match e with
  | ACase c => caseNumber c
  | AnInvoice i => invoiceNumber i
  end.

Definition isNew (e : Entity) : bool :=
  match e with
  | ACase c => case_isNew c
  | AnInvoice i => invoice_isNew i
  end.

Fixpoint forEach {A} (hook : A -> M A) (docs : list A) : M (list A) :=
  match docs with
  | [] => ret []
  | d :: rest =>
      d' <- hook d ;;
      rest' <- forEach hook rest ;;
      ret (d' :: rest')
  end.

(** The save middleware of an entity, in the order in which Mongoose runs
    it: the hooks of the embedded item documents, then the hooks of the
    schema itself in the order of their registration. *)
Definition pre_save (e : Entity) : M Entity :=
  match e with
  | ACase c =>
      c' <- case_pre_save c ;;
      ret (ACase c')
  | AnInvoice i =>
      items' <- forEach invoiceItem_pre_save (items i) ;;
      i1 <- invoice_pre_save_total (set_items i items') ;;
      i2 <- invoice_pre_save_number i1 ;;
      ret (AnInvoice i2)
  end.

(** Keys of the unique index on the identifier ([unique: true] in both
    schemas): a missing field is a key like any other. *)
Definition sameKey (a b : option string) : bool :=
  match a, b with
  | Some x, Some y => String.eqb x y
  | None, None => true
  | _, _ => false
  end.

Definition persisted (e : Entity) : Entity :=
  match e with
  | ACase c => ACase (mkCase false (caseNumber c) (title c) (case_others c))
  | AnInvoice i =>
      AnInvoice (mkInvoice false (invoiceNumber i) (totalAmount i) (items i)
                           (fun _ => false) (invoice_others i))
  end.

Definition store (e : Entity) (w : World) : World :=
  match e with
  | ACase c =>
      mkWorld (clock w) (reads w) (answers w) (requests w) (cases w ++ [c])
              (invoices w) (trace w)
  | AnInvoice i =>
      mkWorld (clock w) (reads w) (answers w) (requests w) (cases w)
              (invoices w ++ [i]) (trace w)
  end.

(** The write that ends the save of a new document: the store rejects it
    when it does not answer or when the unique index already holds the
    identifier. *)
Definition insertOne (e : Entity) : M Entity :=
  fun w =>
    if negb (online w) then (Throw StorageError, asked w)
    else if existsb (sameKey (identifier e)) (numbers (kindOf e) w)
         then (Throw DuplicateKey, asked w)
         else (Ok (persisted e), store (persisted e) (asked w)).

(** ** Validation

    [save()] validates the document before it runs any [pre('save')]
    hook: Mongoose registers validation as the first save middleware of
    every schema, so that a hook of the schema only ever meets a
    document that has passed.  The validators are those that the two
    schemas declare on the paths of the model; for the paths that the
    model leaves out the document says itself whether they pass. *)

(** [required: true] on a String path: a string that is not empty. *)
Definition required (value : option string) : bool := negb (not_ value).

(** [required: true, min: 0] on a Number path that holds a number: [NaN]
    does not cast to a Number, a number below zero fails [min]. *)
Definition min0 (value : float) : bool := (0 <=? value)%float.

Definition item_validates (it : InvoiceItem) : bool :=
  min0 (quantity it) && min0 (rate it) && min0 (amount it).

(** Whether the document passes.  [caseNumber] is declared
    [required: false] and has nothing to pass; [title] and
    [invoiceNumber] are declared [required: true]. *)
Definition validates (e : Entity) : bool :=
  match e with
  | ACase c => required (Some (title c)) && case_others c
  | AnInvoice i =>
      required (invoiceNumber i) && min0 (totalAmount i)
      && forallb item_validates (items i) && invoice_others i
  end.

(** The validation that [save()] starts with: it rejects before the
    store or the clock have been touched. *)
Definition validate (e : Entity) : M unit :=
  fun w => if validates e then (Ok tt, w) else (Throw ValidationError, w).

(** What [save()] runs on a document before it writes it: validation,
    then the hooks. *)
Definition beforeWrite (e : Entity) : M Entity :=
  validate e ;;;
  pre_save e.

(** The document that [await doc.save()] leaves in the hands of its
    caller, accepted or not: the hooks assign to [this], a document that
    validation rejects has met no hook, and the write that follows the
    hooks assigns to none of the paths of the model. *)
Definition afterSave (e : Entity) (w : World) : Entity :=
  match beforeWrite e w with
  | (Ok e', _) => e'
  | (Throw _, _) => e
  end.

(** [await doc.save()] on a new document, as the creation routes call
    it: validation, the hooks, the insert. *)
Definition create (e : Entity) : M Entity :=
  validate e ;;;
  e' <- pre_save e ;;
  insertOne e'.

(** Creations run one after the other, each persisted before the next
    starts. *)
Fixpoint createAll (es : list Entity) : M (list Entity) :=
  match es with
  | [] => ret []
  | e :: rest =>
      e' <- create e ;;
      rest' <- createAll rest ;;
      ret (e' :: rest')
  end.

(** ** The identifier scheme in the words of the specification *)

Definition prefixOf (kind : Kind) : string :=
  match kind with Case => "CASE" | Invoice => "INV" end.

(** The namespace of a year: [{PREFIX}-{year}-]. *)
Definition yearNamespace (kind : Kind) (year : Z) : string :=
  prefixOf kind ++ "-" ++ Num.toString year ++ "-".

(** The pattern [^{PREFIX}-{year}-]. *)
Definition yearPattern (kind : Kind) (year : Z) : RegExp :=
  StartsWith (yearNamespace kind year).

(** The number of persisted entities of [kind] whose identifier lies in
    the namespace of [year]. *)
Definition countOf (kind : Kind) (year : Z) (w : World) : Z :=
  countMatching (yearPattern kind year) (numbers kind w).

(** ["{PREFIX}-{year}-" + zero_pad(sequence, 4)] *)
Definition formatIdentifier (kind : Kind) (year sequence : Z) : string :=
  prefixOf kind ++ "-" ++ Num.toString year ++ "-"
    ++ Str.padStart 4 "0" (Num.toString sequence).

(** The sequence of an identifier of the namespace of [year]: the number
    that follows the namespace. *)
Definition sequenceOf (kind : Kind) (year : Z) (id : string) : N :=
  Str.value (Str.drop (String.length (yearNamespace kind year)) id).

(** The low four digits of the epoch milliseconds. *)
Definition last4Digits (now : Z) : string :=
  Str.slice (-4) (Num.toString now).

(** The identifier of the fallback path. *)
Definition fallbackIdentifier (kind : Kind) (year now : Z) : string :=
  match kind with
  | Case => "CASE-" ++ Num.toString year ++ "-" ++ last4Digits now
  | Invoice => "INV-" ++ Num.toString year ++ "-0001"
  end.

(** An entity for which the allocator has work to do: the guard of the
    hook of its schema. *)
Definition wantsIdentifier (e : Entity) : bool :=
  match e with
  | ACase c => case_isNew c && not_ (caseNumber c)
  | AnInvoice i => not_ (invoiceNumber i)
  end.

(** The events of a trace that are queries. *)
Definition isQuery (ev : Event) : bool :=
  match ev with CountDocuments _ _ => true | Next _ => false end.

(** [SumsTo l s]: [s] is what adding the amounts of [l] one by one, in
    their order, to zero gives. *)
Inductive SumsTo : list InvoiceItem -> float -> Prop :=
| SumsTo_nil : SumsTo [] 0%float
| SumsTo_snoc l s it :
    SumsTo l s -> SumsTo (l ++ [it]) (s + amount it)%float.

(** Two saves, of documents that have passed validation, whose hooks
    have both run before either document is written: the schedule of the
    race. *)
Definition twoSavesInterleaved (a b : Entity) : M (Entity * Result Entity) :=
  a' <- pre_save a ;;
  b' <- pre_save b ;;
  a'' <- insertOne a' ;;
  fun w => let (r, w') := insertOne b' w in (Ok (a'', r), w').

(** The invariant of a run of creations: the numbers of the year that the
    collection holds are those of the sequences [1..m]. *)
Definition upTo (kind : Kind) (year : Z) (m : nat) (w : World) : Prop :=
  countOf kind year w = Z.of_nat m
  /\ forall id, In (Some id) (numbers kind w) ->
                test (yearPattern kind year) id = true ->
                exists j, (1 <= j <= m)%nat
                          /\ id = formatIdentifier kind year (Z.of_nat j).

(** ** Sample data *)

Definition at2024 : Instant := mkInstant 1718000001234 2024.

Definition world0 : World :=
  mkWorld (fun _ => at2024) 0 (fun _ => true) 0 [] [] [].

(** [w] with a store that does not answer its next request, and answers
    again after it. *)
Definition outage (w : World) : World :=
  mkWorld (clock w) (reads w)
          (fun k => negb (Nat.eqb k (requests w))) (requests w)
          (cases w) (invoices w) (trace w).

Definition blankCase : CaseDoc := mkCase true None "Estate of A" true.

Definition unmodified : string -> bool := fun _ => false.

Definition blankInvoice : InvoiceDoc :=
  mkInvoice true None 0%float [] unmodified true.

(** A Case collection that holds the identifiers [1..n] of 2024. *)
Definition casesOf2024 (n : N) : list CaseDoc :=
  map (fun k => mkCase false (Some (formatIdentifier Case 2024 (Z.of_nat k)))
                       "on file" true)
      (seq 1 (N.to_nat n)).

Definition invoicesOf2024 (n : N) : list InvoiceDoc :=
  map (fun k => mkInvoice false
                  (Some (formatIdentifier Invoice 2024 (Z.of_nat k)))
                  0%float [] unmodified true)
      (seq 1 (N.to_nat n)).

Definition worldWith (cs : list CaseDoc) (ivs : list InvoiceDoc) : World :=
  mkWorld (fun _ => at2024) 0 (fun _ => true) 0 cs ivs [].

Definition halfHour : InvoiceItem :=
  mkItem 0.5%float 300%float 0%float
         (fun path => String.eqb path "quantity").

Definition flatFee : InvoiceItem :=
  mkItem 1%float 1200%float 1200%float unmodified.

(** An item whose quantity and rate have been set, with an amount that
    is out of date. *)
Definition requested (q r : float) : InvoiceItem :=
  mkItem q r 0%float (fun _ => true).

Definition at2025 : Instant := mkInstant 1736000000000 2025.

Definition tenSecondsLater : Instant := mkInstant 1718000011234 2024.

Definition endsIn0003 : Instant := mkInstant 1718000000003 2024.

(** ** What a hook leaves as it found it *)

(** [logged evs w]: the world [w] after the events [evs]. *)
Definition logged (evs : list Event) (w : World) : World :=
  mkWorld (clock w) (reads w) (answers w) (requests w) (cases w)
          (invoices w) (trace w ++ evs).

(** [w'] has the clock, the availability and the collections of [w]. *)
Definition sameStore (w w' : World) : Prop :=
  clock w' = clock w /\ answers w' = answers w
  /\ cases w' = cases w /\ invoices w' = invoices w.

(** The invoice that [invoice_pre_save_total] hands on. *)
Definition totalSaved (i : InvoiceDoc) : InvoiceDoc :=
  if invoice_isModified i "items"
  then set_totalAmount i
         (reduce (fun sum item => (sum + amount item)%float) 0%float (items i))
  else i.

(** The item that [invoiceItem_pre_save] hands on. *)
Definition itemSaved (it : InvoiceItem) : InvoiceItem :=
  if item_isModified it "quantity" || item_isModified it "rate"
  then set_amount it (quantity it * rate it)%float
  else it.

(** ** [timeEntrySchema] of [src/models/Billing.model.js] *)

Record TimeEntry := mkTimeEntry {
  hours : float;
  hourlyRate : float;
  entry_amount : float;
  entry_isModified : string -> bool }.

Definition set_entry_amount (this : TimeEntry) (v : float) : TimeEntry :=
  mkTimeEntry (hours this) (hourlyRate this) v (entry_isModified this).

(** [timeEntrySchema.pre('save', function(next) { ... })] *)
Definition timeEntry_pre_save (this : TimeEntry) : M TimeEntry :=
  this <-
    (if entry_isModified this "hours" || entry_isModified this "hourlyRate"
     then ret (set_entry_amount this (hours this * hourlyRate this)%float)
     else ret this) ;;
  next None ;;;
  ret this.

(** What the line items of an invoice come to when each amount is the
    product of quantity and rate: the products added one by one, in the
    order of the items, to zero. *)
Definition billed (l : list InvoiceItem) : float :=
  fold_left (fun sum item => (sum + quantity item * rate item)%float) l
            0%float.

(** Saves of fresh documents tried one after the other against the
    same collections, whatever becomes of each. *)
Fixpoint attempts (es : list Entity) (w : World) : list (Result Entity) :=
  match es with
  | [] => []
  | e :: rest =>
      let (r, w') := create e w in
      r :: attempts rest w'
  end.

(** ** The list routes: the filter that a request ends in

    [src/routes/billing.routes.js] and the case routes build the filter
    of their [find] from the query and from the authenticated user.  The
    handlers are embedded up to that query: their result is the filter
    that the collection is searched with, or the empty listing that the
    handler answers with at once.  Identifiers of documents and users
    are strings. *)

Record ReqUser := mkUser {
  user_id : string;              (* req.user._id *)
  role : string;                 (* req.user.role *)
  email : string }.              (* req.user.email *)

Record ClientRecord := mkClient {
  client_id : string;
  client_email : string;
  client_assignedLawyerId : option string }.

Inductive Reply (F : Type) :=
| NoData                         (* res.json({ success: true, data: [] }) *)
| FindWith (filter : F).         (* Model.find(filter) *)

Arguments NoData {F}.
Arguments FindWith {F} filter.

(** [if (value)] on a string that may be undefined. *)
Definition truthy (value : option string) : bool := negb (not_ value).

(** A read of the store: it rejects when the store does not answer. *)
Definition answered {A} (a : A) : M A :=
  fun w => if online w then (Ok a, asked w) else (Throw StorageError, asked w).

(** [Client.findOne({ email })] *)
Definition Client_findOne (clients : list ClientRecord) (e : string)
  : M (option ClientRecord) :=
  answered (find (fun c => String.eqb (client_email c) e) clients).

(** [Client.find({ assignedLawyerId })] *)
Definition Client_find (clients : list ClientRecord) (lawyer : string)
  : M (list ClientRecord) :=
  answered (filter (fun c => sameKey (client_assignedLawyerId c) (Some lawyer))
                   clients).

Record CasesQuery := mkCasesQuery {
  q_clientId : option string;
  q_assignedLawyerId : option string;
  q_status : option string;
  q_caseType : option string }.

Record CaseFilter := mkCaseFilter {
  filter_clientId : option string;
  filter_assignedLawyerId : option string;
  filter_status : option string;
  filter_caseType : option string }.

(** [router.get('/', ...)] of the case routes, lines 83 to 105. *)
Definition get_cases (clients : list ClientRecord) (user : ReqUser)
  (query : CasesQuery) : M (Reply CaseFilter) :=
  restricted <-
    (if String.eqb (role user) "Client" then
       client <- Client_findOne clients (email user) ;;
       match client with
       | Some c =>
           ret (FindWith (mkCaseFilter (Some (client_id c)) None None None))
       | None => ret NoData
       end
     else if String.eqb (role user) "Lawyer" then
       ret (FindWith (mkCaseFilter None (Some (user_id user)) None None))
     else ret (FindWith (mkCaseFilter None None None None))) ;;
  match restricted with
  | NoData => ret NoData
  | FindWith f0 =>
      let f1 :=
        if truthy (q_clientId query)
        then mkCaseFilter (q_clientId query) (filter_assignedLawyerId f0)
                          (filter_status f0) (filter_caseType f0)
        else f0 in
      let f2 :=
        if truthy (q_assignedLawyerId query) && String.eqb (role user) "Admin"
        then mkCaseFilter (filter_clientId f1) (q_assignedLawyerId query)
                          (filter_status f1) (filter_caseType f1)
        else f1 in
      let f3 :=
        if truthy (q_status query)
        then mkCaseFilter (filter_clientId f2) (filter_assignedLawyerId f2)
                          (q_status query) (filter_caseType f2)
        else f2 in
      let f4 :=
        if truthy (q_caseType query)
        then mkCaseFilter (filter_clientId f3) (filter_assignedLawyerId f3)
                          (filter_status f3) (q_caseType query)
        else f3 in
      ret (FindWith f4)
  end.

(** A condition on [clientId]: a value, or [{ $in: values }]. *)
Inductive ClientCond :=
| Is (id : string)
| OneOf (ids : list string).

Record InvoicesQuery := mkInvoicesQuery {
  iq_clientId : option string;
  iq_status : option string }.

Record InvoiceFilter := mkInvoiceFilter {
  ifilter_clientId : option ClientCond;
  ifilter_status : option string }.

(** [router.get('/invoices', ...)], lines 110 to 130. *)
Definition get_invoices (clients : list ClientRecord) (user : ReqUser)
  (query : InvoicesQuery) : M (Reply InvoiceFilter) :=
  let f0 := mkInvoiceFilter None None in
  let f1 :=
    if truthy (iq_clientId query)
    then mkInvoiceFilter (option_map Is (iq_clientId query)) (ifilter_status f0)
    else f0 in
  let f2 :=
    if truthy (iq_status query)
    then mkInvoiceFilter (ifilter_clientId f1) (iq_status query)
    else f1 in
  if String.eqb (role user) "Client" then
    client <- Client_findOne clients (email user) ;;
    match client with
    | Some c =>
        ret (FindWith (mkInvoiceFilter (Some (Is (client_id c)))
                                       (ifilter_status f2)))
    | None => ret NoData
    end
  else if String.eqb (role user) "Lawyer" then
    found <- Client_find clients (user_id user) ;;
    ret (FindWith (mkInvoiceFilter (Some (OneOf (map client_id found)))
                                   (ifilter_status f2)))
  else ret (FindWith f2).

Record TimeEntriesQuery := mkTimeEntriesQuery {
  tq_caseId : option string;
  tq_lawyerId : option string }.

Record TimeEntryFilter := mkTimeEntryFilter {
  tfilter_caseId : option string;
  tfilter_lawyerId : option string }.

(** [router.get('/time-entries', ...)], lines 19 to 29. *)
Definition get_time_entries (user : ReqUser) (query : TimeEntriesQuery)
  : TimeEntryFilter :=
  let f0 := mkTimeEntryFilter None None in
  let f1 :=
    if truthy (tq_caseId query)
    then mkTimeEntryFilter (tq_caseId query) (tfilter_lawyerId f0)
    else f0 in
  if truthy (tq_lawyerId query) && String.eqb (role user) "Admin"
  then mkTimeEntryFilter (tfilter_caseId f1) (tq_lawyerId query)
  else mkTimeEntryFilter (tfilter_caseId f1) (Some (user_id user)).

(** ** The routes that create cases

    [router.post('/', ...)] and [router.post('/bulk', ...)] of the case
    routes.  Of the request body the embedding carries what the handlers
    decide on and report: title, client and assigned lawyer; the other
    fields go into the document as they come, and what the model knows
    of them is whether the document that [new Case] builds from them
    passes the validation of the schema on their paths.  The array of
    validation errors is the one that [validationResult(req)] hands the
    handler.

    The [_id] of a stored document is an [ObjectId]; the model writes it
    as [toString()] does.  The id of a request is a string, which
    Mongoose casts to an [ObjectId] before it sends a query on [_id],
    throwing a [CastError] where the string does not cast.  Three things
    come from outside: that cast, the text of an error
    ([error.message]) and the [_id] of the document that [new Case]
    builds for a row. *)

Record UserRecord := mkUserRecord {
  record_id : string;
  record_role : string }.

Record CaseData := mkCaseData {
  cd_title : string;
  cd_clientId : string;
  cd_assignedLawyerId : string;
  cd_others : bool }.            (* the paths built from the other fields pass *)

(** [a || b] on strings. *)
Definition or_ (a b : string) : string :=
  match a with
  | EmptyString => b
  | String _ _ => a
  end.

(** [new Map(entries)] and [map.get(key)]: of two entries with one key
    the later one counts. *)
Definition Map_get {V} (entries : list (string * V)) (key : string)
  : option V :=
  option_map snd (find (fun kv => String.eqb (fst kv) key) (rev entries)).

(** The fields of [formatCaseResponse(caseItem)] that the model carries. *)
Record CaseResponse := mkCaseResponse {
  response_id : string;
  response_caseNumber : string;
  response_title : string }.

Definition formatCaseResponse (id : string) (caseItem : CaseDoc)
  : CaseResponse :=
  mkCaseResponse id
    (match caseNumber caseItem with Some n => or_ n "" | None => "" end)
    (or_ (title caseItem) "").

Record SuccessEntry := mkSuccess {
  s_index : nat;
  s_id : string;
  s_caseNumber : string;
  s_title : string }.

Record FailedEntry := mkFailed {
  f_index : nat;
  f_title : string;
  f_error : string }.

(** [await caseItem.save()] on a new Case. *)
Definition save_case (caseItem : CaseDoc) : M CaseDoc :=
  saved <- create (ACase caseItem) ;;
  match saved with
  | ACase c => ret c
  | AnInvoice _ => ret caseItem
  end.

(** The cast of the id of a query: the [ObjectId] that the string casts
    to, or a [CastError]; nothing has been sent to the store yet. *)
Definition castObjectId (cast : string -> option string) (id : string)
  : M string :=
  fun w =>
    match cast id with
    | Some oid => (Ok oid, w)
    | None => (Throw CastError, w)
    end.

(** [Model.findById(id)] *)
Definition Client_findById (cast : string -> option string)
  (clients : list ClientRecord) (id : string) : M (option ClientRecord) :=
  oid <- castObjectId cast id ;;
  answered (find (fun c => String.eqb (client_id c) oid) clients).

Definition User_findById (cast : string -> option string)
  (users : list UserRecord) (id : string) : M (option UserRecord) :=
  oid <- castObjectId cast id ;;
  answered (find (fun u => String.eqb (record_id u) oid) users).

(** [Client.find({ _id: { $in: ids } })]: every id of the list is cast
    before the query is sent. *)
Definition Client_find_in (cast : string -> option string)
  (clients : list ClientRecord) (ids : list string) : M (list ClientRecord) :=
  oids <- forEach (castObjectId cast) ids ;;
  answered (filter (fun c => existsb (String.eqb (client_id c)) oids) clients).

(** [User.find({ _id: { $in: ids }, role: { $in: ['Lawyer', 'Admin'] } })] *)
Definition User_find_in (cast : string -> option string)
  (users : list UserRecord) (ids : list string) : M (list UserRecord) :=
  oids <- forEach (castObjectId cast) ids ;;
  answered
    (filter (fun u => existsb (String.eqb (record_id u)) oids
                      && (String.eqb (record_role u) "Lawyer"
                          || String.eqb (record_role u) "Admin"))
            users).

Inductive CreateResponse :=
| Failure (status : nat) (message : string) (errors : list string)
| Created (data : CaseResponse).          (* status 201 *)

Inductive BulkResponse :=
| BulkFailure (status : nat) (message : string) (errors : list string)
| BulkSummary (status : nat) (success : bool) (total created failed : nat)
              (successful : list SuccessEntry) (failedRows : list FailedEntry).

Section CaseRoutes.

Variable cast : string -> option string.  (* the cast of an id to ObjectId *)
Variable message : Error -> string.       (* error.message *)
Variable objectId : nat -> string.        (* the _id of the document of a row *)

Variables (clients : list ClientRecord) (users : list UserRecord).

(** [router.post('/', ...)], lines 186 to 274. *)
Definition post_case (user : ReqUser) (errors : list string)
  (body : CaseData) : M CreateResponse :=
  tryCatch
    (match errors with
     | _ :: _ => ret (Failure 400 "Validation failed" errors)
     | [] =>
         client <- Client_findById cast clients (cd_clientId body) ;;
         match client with
         | None => ret (Failure 400 "Client not found" [])
         | Some _ =>
             lawyer <- User_findById cast users (cd_assignedLawyerId body) ;;
             if match lawyer with
                | None => true
                | Some l => negb (String.eqb (record_role l) "Lawyer")
                            && negb (String.eqb (record_role l) "Admin")
                end
             then ret (Failure 400 "Invalid assigned lawyer" [])
             else if negb (String.eqb (role user) "Admin")
                     && negb (String.eqb (cd_assignedLawyerId body)
                                         (user_id user))
             then ret (Failure 403 "You can only assign cases to yourself" [])
             else
               let caseItem :=
                 mkCase true None (cd_title body) (cd_others body) in
               newDate ;;;
               saved <- save_case caseItem ;;
               answered tt ;;;
               answered tt ;;;
               ret (Created (formatCaseResponse (objectId 0) saved))
         end
     end)
    (fun error => ret (Failure 500 "Server error" [])).

(** The body of the loop of [router.post('/bulk', ...)], lines 324 to
    410: what becomes of row [i]. *)
Definition bulk_row (user : ReqUser)
  (clientMap : list (string * ClientRecord))
  (lawyerMap : list (string * UserRecord))
  (i : nat) (caseData : CaseData) : M (SuccessEntry + FailedEntry) :=
  tryCatch
    (match Map_get clientMap (cd_clientId caseData) with
     | None =>
         ret (inr (mkFailed i (or_ (cd_title caseData) "Unknown")
                            "Client not found"))
     | Some _ =>
         match Map_get lawyerMap (cd_assignedLawyerId caseData) with
         | None =>
             ret (inr (mkFailed i (or_ (cd_title caseData) "Unknown")
                                "Invalid assigned lawyer"))
         | Some _ =>
             if negb (String.eqb (role user) "Admin")
                && negb (String.eqb (cd_assignedLawyerId caseData)
                                    (user_id user))
             then
               ret (inr (mkFailed i (or_ (cd_title caseData) "Unknown")
                                  "You can only assign cases to yourself"))
             else
               let caseItem :=
                 mkCase true None (cd_title caseData) (cd_others caseData) in
               newDate ;;;
               saved <- save_case caseItem ;;
               answered tt ;;;
               answered tt ;;;
               let formattedCase := formatCaseResponse (objectId i) saved in
               ret (inl (mkSuccess i (response_id formattedCase)
                                   (response_caseNumber formattedCase)
                                   (response_title formattedCase)))
         end
     end)
    (fun error =>
       ret (inr (mkFailed i (or_ (cd_title caseData) "Unknown")
                          (or_ (message error) "Failed to create case")))).

(** [for (let i = 0; i < cases.length; i++) { ... }] from row [i] on. *)
Fixpoint bulk_loop (user : ReqUser)
  (clientMap : list (string * ClientRecord))
  (lawyerMap : list (string * UserRecord))
  (i : nat) (rows : list CaseData)
  (success : list SuccessEntry) (failed : list FailedEntry)
  : M (list SuccessEntry * list FailedEntry) :=
  match rows with
  | [] => ret (success, failed)
  | caseData :: rest =>
      r <- bulk_row user clientMap lawyerMap i caseData ;;
      match r with
      | inl s =>
          bulk_loop user clientMap lawyerMap (S i) rest (success ++ [s]) failed
      | inr f =>
          bulk_loop user clientMap lawyerMap (S i) rest success (failed ++ [f])
      end
  end.

(** [router.post('/bulk', ...)], lines 292 to 436. *)
Definition post_cases_bulk (user : ReqUser) (errors : list string)
  (cases : list CaseData) : M BulkResponse :=
  tryCatch
    (match errors with
     | _ :: _ => ret (BulkFailure 400 "Validation failed" errors)
     | [] =>
         let uniqueClientIds := nodup string_dec (map cd_clientId cases) in
         let uniqueLawyerIds :=
           nodup string_dec (map cd_assignedLawyerId cases) in
         found <- Client_find_in cast clients uniqueClientIds ;;
         lawyers <- User_find_in cast users uniqueLawyerIds ;;
         let clientMap := map (fun c => (client_id c, c)) found in
         let lawyerMap := map (fun l => (record_id l, l)) lawyers in
         results <- bulk_loop user clientMap lawyerMap 0 cases [] [] ;;
         let (success, failed) := results in
         let statusCode :=
           if Nat.eqb (List.length failed) 0 then 201
           else if Nat.ltb 0 (List.length success) then 207 else 400 in
         ret (BulkSummary statusCode (Nat.ltb 0 (List.length success))
                          (List.length cases) (List.length success)
                          (List.length failed) success failed)
     end)
    (fun error => ret (BulkFailure 500 "Server error" [message error])).

End CaseRoutes.

(** The index of the row that an outcome reports. *)
Definition rowOf (o : SuccessEntry + FailedEntry) : nat :=
  match o with inl s => s_index s | inr f => f_index f end.

Fixpoint successesOf (l : list (SuccessEntry + FailedEntry))
  : list SuccessEntry :=
  match l with
  | [] => []
  | inl s :: rest => s :: successesOf rest
  | inr _ :: rest => successesOf rest
  end.

Fixpoint failuresOf (l : list (SuccessEntry + FailedEntry))
  : list FailedEntry :=
  match l with
  | [] => []
  | inl _ :: rest => failuresOf rest
  | inr f :: rest => f :: failuresOf rest
  end.

Definition lawyerLee : ReqUser := mkUser "u-lee" "Lawyer" "lee@firm.example".

Definition clientAda : ReqUser := mkUser "u-ada" "Client" "ada@mail.example".

Definition twoClients : list ClientRecord :=
  [mkClient "c-1" "bob@mail.example" (Some "u-lee");
   mkClient "c-2" "ada@mail.example" None].

(** A row that the loop of the bulk route accepts for [user]. *)
Definition rowAccepted (user : ReqUser)
  (clientMap : list (string * ClientRecord))
  (lawyerMap : list (string * UserRecord))
  (row : CaseData) (s : SuccessEntry) : Prop :=
  Map_get clientMap (cd_clientId row) <> None
  /\ Map_get lawyerMap (cd_assignedLawyerId row) <> None
  /\ (role user = "Admin" \/ cd_assignedLawyerId row = user_id user)
  /\ s_title s = cd_title row
  /\ s_caseNumber s <> "".

(** A cast for the examples: a string of 24 hexadecimal digits casts to
    the [ObjectId] of these digits, which [toString()] writes in lower
    case; no other string of the examples casts. *)
Definition isHex (c : ascii) : bool :=
  let n := N_of_ascii c in
  ((48 <=? n) && (n <=? 57) || (65 <=? n) && (n <=? 70)
   || (97 <=? n) && (n <=? 102))%N.

Definition toLower (c : ascii) : ascii :=
  let n := N_of_ascii c in
  if ((65 <=? n) && (n <=? 90))%N then ascii_of_N (n + 32) else c.

Fixpoint mapChars (f : ascii -> ascii) (s : string) : string :=
  match s with
  | EmptyString => EmptyString
  | String c r => String (f c) (mapChars f r)
  end.

Fixpoint allChars (p : ascii -> bool) (s : string) : bool :=
  match s with
  | EmptyString => true
  | String c r => p c && allChars p r
  end.

Definition hex24 (id : string) : option string :=
  if Nat.eqb (String.length id) 24 && allChars isHex id
  then Some (mapChars toLower id)
  else None.

(** A firm of two lawyers and two clients, and a request of three rows
    by one of the lawyers. *)
Definition idLee : string := "650a0000000000000000a001".
Definition idKim : string := "650a0000000000000000a002".
Definition idAda : string := "650a0000000000000000a003".
Definition idRoot : string := "650a0000000000000000a000".
Definition idBob : string := "650c0000000000000000c001".
Definition idAdaClient : string := "650c0000000000000000c002".

Definition counselLee : ReqUser := mkUser idLee "Lawyer" "lee@firm.example".

Definition adminRoot : ReqUser := mkUser idRoot "Admin" "root@firm.example".

Definition firmClients : list ClientRecord :=
  [mkClient idBob "bob@mail.example" (Some idLee);
   mkClient idAdaClient "ada@mail.example" None].

Definition firmUsers : list UserRecord :=
  [mkUserRecord idLee "Lawyer"; mkUserRecord idKim "Lawyer";
   mkUserRecord idAda "Client"].

Definition threeRows : list CaseData :=
  [mkCaseData "Lease dispute" idBob idLee true;
   mkCaseData "Boundary" idAdaClient idKim true;
   mkCaseData "Probate" "650c0000000000000000c009" idLee true].

Definition driverText (e : Error) : string :=
  match e with
  | StorageError => "connection lost"
  | DuplicateKey => "E11000 duplicate key error"
  | ValidationError => "Case validation failed"
  | CastError => "Cast to ObjectId failed"
  end.

Definition rowId (i : nat) : string := "id-" ++ Num.toString (Z.of_nat i).

(** The reasons for which the loop of the bulk route turns a row down
    before it saves anything. *)
Definition refusal (text : string) : Prop :=
  text = "Client not found"
  \/ text = "Invalid assigned lawyer"
  \/ text = "You can only assign cases to yourself".

(** The document that the creation routes build from a row,
    [new Case({ ... })]. *)
Definition newCase (row : CaseData) : CaseDoc :=
  mkCase true None (cd_title row) (cd_others row).

(** What a row that is not created is reported with when the store
    answers and the next number is free: one of the refusals of the
    loop, or the text of the error of a row whose document does not pass
    validation. *)
Definition turnedDown (message : Error -> string) (rows : list CaseData)
  (f : FailedEntry) : Prop :=
  refusal (f_error f)
  \/ exists row,
       In row rows
       /\ validates (ACase (newCase row)) = false
       /\ f_error f = or_ (message ValidationError) "Failed to create case".

(** * Facts *)

(** ** Strings *)

Section StringFacts.

Lemma append_assoc (a b c : string) : (a ++ b) ++ c = a ++ (b ++ c).
Proof. induction a as [|x a IH]; simpl; [reflexivity | now rewrite IH]. Qed.

Lemma length_append (a b : string) :
  String.length (a ++ b) = String.length a + String.length b.
Proof. induction a as [|x a IH]; simpl; [reflexivity | now rewrite IH]. Qed.

Lemma prefix_append (p s : string) : String.prefix p (p ++ s) = true.
Proof.
  induction p as [|c p IH]; simpl.
  - now destruct s.
  - destruct (ascii_dec c c) as [_|ne]; [exact IH | now elim ne].
Qed.

Lemma drop_append (a b : string) : Str.drop (String.length a) (a ++ b) = b.
Proof. induction a as [|x a IH]; simpl; [reflexivity | exact IH]. Qed.

Lemma allDigits_append (a b : string) :
  Str.allDigits (a ++ b) = Str.allDigits a && Str.allDigits b.
Proof.
  induction a as [|c a IH]; simpl; [reflexivity|].
  now rewrite IH, andb_assoc.
Qed.

Lemma valueFrom_append (a b : string) (acc : N) :
  Str.valueFrom acc (a ++ b) = Str.valueFrom (Str.valueFrom acc a) b.
Proof. revert acc; induction a as [|c a IH]; intro acc; simpl; auto. Qed.

(** The last four characters of a string that ends in four characters. *)
Lemma slice_last4 (pre : string) (a b c d : ascii) :
  Str.slice (-4) (pre ++ String a (String b (String c (String d ""))))
  = String a (String b (String c (String d ""))).
Proof.
  unfold Str.slice. rewrite length_append. simpl String.length.
  replace (Z.to_nat _) with (String.length pre).
  - apply drop_append.
  - change (-4 <? 0)%Z with true. cbv iota. lia.
Qed.

(** Padding with zeros: the filler is made of [k] zeros. *)
Lemma filler_zero (k : nat) (rest : string) :
  rest = "0" \/ rest = "" ->
  String.length (Str.filler k "0" rest) = k
  /\ Str.allDigits (Str.filler k "0" rest) = true
  /\ Str.valueFrom 0 (Str.filler k "0" rest) = 0%N.
Proof.
  revert rest; induction k as [|k IH]; intros rest Hrest.
  - now simpl.
  - destruct Hrest as [-> | ->]; simpl;
      destruct (IH "" (or_intror eq_refl)) as (L & D & V);
      rewrite L, D; auto.
Qed.

End StringFacts.

(** ** Decimal rendering *)

Section DecimalFacts.

Local Open Scope N_scope.

Lemma digits_S (f : nat) (n : N) :
  Num.digits (S f) n
  = if n <? 10 then String (Num.digitChar n) ""
    else (Num.digits f (n / 10) ++ String (Num.digitChar (n mod 10)) "")%string.
Proof. reflexivity. Qed.

(** Enough fuel is enough: the result does not depend on it. *)
Lemma digits_fuel (f1 f2 : nat) (n : N) :
  n < 2 ^ N.of_nat f1 -> n < 2 ^ N.of_nat f2 ->
  Num.digits (S f1) n = Num.digits (S f2) n.
Proof.
  revert f2 n; induction f1 as [|f1 IH]; intros f2 n H1 H2;
    rewrite !digits_S; destruct (N.ltb_spec n 10) as [lt|ge]; try reflexivity.
  - simpl in H1. lia.
  - destruct f2 as [|f2]; [simpl in H2; lia|].
    rewrite Nat2N.inj_succ, N.pow_succ_r' in H1, H2.
    f_equal. apply IH; apply N.Div0.div_lt_upper_bound; lia.
Qed.

Lemma decimal_unfold (n : N) :
  Num.decimal n
  = if n <? 10 then String (Num.digitChar n) ""
    else (Num.decimal (n / 10) ++ String (Num.digitChar (n mod 10)) "")%string.
Proof.
  unfold Num.decimal at 1. rewrite digits_S.
  destruct (N.ltb_spec n 10) as [lt|ge]; [reflexivity|].
  f_equal. unfold Num.decimal.
  pose proof (N.size_gt n) as Hn.
  pose proof (N.size_gt (n / 10)) as Hd.
  destruct (N.to_nat (N.size n)) as [|m] eqn:E.
  - assert (N.size n = 0) as Z0 by lia. rewrite Z0 in Hn. simpl in Hn. lia.
  - apply digits_fuel.
    + assert (N.size n = N.succ (N.of_nat m)) as Sz by lia.
      rewrite Sz, N.pow_succ_r' in Hn.
      apply N.Div0.div_lt_upper_bound; lia.
    + now rewrite N2Nat.id.
Qed.

Lemma decimal_small (n : N) :
  n < 10 -> Num.decimal n = String (Num.digitChar n) "".
Proof.
  intro H. rewrite decimal_unfold.
  destruct (N.ltb_spec n 10); [reflexivity | lia].
Qed.

Lemma decimal_large (n : N) :
  10 <= n ->
  Num.decimal n
  = (Num.decimal (n / 10) ++ String (Num.digitChar (n mod 10)) "")%string.
Proof.
  intro H. rewrite decimal_unfold.
  destruct (N.ltb_spec n 10); [lia | reflexivity].
Qed.

Lemma digitChar_code (d : N) : d < 10 -> N_of_ascii (Num.digitChar d) = 48 + d.
Proof. intro H. unfold Num.digitChar. apply N_ascii_embedding. lia. Qed.

Lemma digitChar_isDigit (d : N) : d < 10 -> Str.isDigit (Num.digitChar d) = true.
Proof.
  intro H. unfold Str.isDigit. rewrite digitChar_code by exact H.
  apply andb_true_iff; split; apply N.leb_le; lia.
Qed.

Lemma valueFrom_digitChar (acc d : N) :
  d < 10 -> Str.valueFrom acc (String (Num.digitChar d) "") = 10 * acc + d.
Proof. intro H. simpl. rewrite digitChar_code by exact H. lia. Qed.

Lemma decimal_allDigits (n : N) : Str.allDigits (Num.decimal n) = true.
Proof.
  induction n as [n IH] using (well_founded_induction N.lt_wf_0).
  destruct (N.ltb_spec n 10) as [lt|ge].
  - rewrite decimal_small by exact lt. simpl.
    now rewrite digitChar_isDigit.
  - rewrite decimal_large, allDigits_append by exact ge. simpl.
    rewrite IH by (apply N.Div0.div_lt_upper_bound; lia).
    rewrite digitChar_isDigit; [reflexivity|].
    apply N.mod_upper_bound. lia.
Qed.

(** Reading the rendering back gives the number. *)
Lemma decimal_value (n : N) : Str.value (Num.decimal n) = n.
Proof.
  unfold Str.value.
  induction n as [n IH] using (well_founded_induction N.lt_wf_0).
  destruct (N.ltb_spec n 10) as [lt|ge].
  - rewrite decimal_small, valueFrom_digitChar by exact lt. lia.
  - rewrite decimal_large, valueFrom_append by exact ge.
    rewrite IH by (apply N.Div0.div_lt_upper_bound; lia).
    rewrite valueFrom_digitChar by (apply N.mod_upper_bound; lia).
    symmetry. apply N.div_mod. lia.
Qed.

Lemma decimal_length_le (k : nat) (n : N) :
  n < 10 ^ N.of_nat (S k) -> (String.length (Num.decimal n) <= S k)%nat.
Proof.
  revert n; induction k as [|k IH]; intros n H;
    destruct (N.ltb_spec n 10) as [lt|ge];
    try (rewrite decimal_small by exact lt; simpl; lia).
  - simpl in H. lia.
  - rewrite decimal_large, length_append by exact ge. simpl.
    rewrite Nat2N.inj_succ, N.pow_succ_r' in H.
    assert (String.length (Num.decimal (n / 10)) <= S k)%nat; [|lia].
    apply IH. apply N.Div0.div_lt_upper_bound. exact H.
Qed.

Lemma decimal_length_gt (k : nat) (n : N) :
  10 ^ N.of_nat k <= n -> (k < String.length (Num.decimal n))%nat.
Proof.
  revert n; induction k as [|k IH]; intros n H.
  - rewrite decimal_unfold. destruct (n <? 10); [simpl; lia|].
    rewrite length_append. simpl. lia.
  - rewrite Nat2N.inj_succ, N.pow_succ_r' in H.
    assert (10 <= n) as ge.
    { assert (10 ^ N.of_nat k <> 0) by (apply N.pow_nonzero; lia). lia. }
    rewrite decimal_large, length_append by exact ge. simpl.
    assert (k < String.length (Num.decimal (n / 10)))%nat; [|lia].
    apply IH. apply N.div_le_lower_bound; lia.
Qed.

(** From a thousand on, the rendering ends in the digits of the units,
    tens, hundreds and thousands. *)
Lemma decimal_last4 (n : N) :
  1000 <= n ->
  exists pre,
    Num.decimal n
    = (pre ++ String (Num.digitChar (n / 10 / 10 / 10 mod 10))
              (String (Num.digitChar (n / 10 / 10 mod 10))
              (String (Num.digitChar (n / 10 mod 10))
              (String (Num.digitChar (n mod 10)) ""))))%string.
Proof.
  intro H.
  assert (100 <= n / 10) as H1 by (apply N.div_le_lower_bound; lia).
  assert (10 <= n / 10 / 10) as H2 by (apply N.div_le_lower_bound; lia).
  rewrite (decimal_large n) by lia.
  rewrite (decimal_large (n / 10)) by lia.
  rewrite (decimal_large (n / 10 / 10)) by lia.
  rewrite (decimal_unfold (n / 10 / 10 / 10)).
  destruct (N.ltb_spec (n / 10 / 10 / 10) 10) as [lt|ge].
  - exists ""%string.
    rewrite (N.mod_small (n / 10 / 10 / 10) 10) by exact lt. reflexivity.
  - exists (Num.decimal (n / 10 / 10 / 10 / 10)).
    now rewrite !append_assoc.
Qed.

Lemma last4_value (n : N) :
  1000 * (n / 10 / 10 / 10 mod 10) + 100 * (n / 10 / 10 mod 10)
    + 10 * (n / 10 mod 10) + n mod 10
  = n mod 10000.
Proof.
  pose proof (N.div_mod n 10) as E0.
  pose proof (N.div_mod (n / 10) 10) as E1.
  pose proof (N.div_mod (n / 10 / 10) 10) as E2.
  pose proof (N.div_mod (n / 10 / 10 / 10) 10) as E3.
  pose proof (N.mod_upper_bound n 10) as B0.
  pose proof (N.mod_upper_bound (n / 10) 10) as B1.
  pose proof (N.mod_upper_bound (n / 10 / 10) 10) as B2.
  pose proof (N.mod_upper_bound (n / 10 / 10 / 10) 10) as B3.
  apply N.mod_unique with (q := n / 10 / 10 / 10 / 10); lia.
Qed.

(** [String(n).padStart(4, '0')]: digits only, denoting [n]; four of
    them below ten thousand, the rendering itself from there on. *)
Lemma pad4_spec (n : N) :
  let p := Str.padStart 4 "0" (Num.decimal n) in
  Str.allDigits p = true
  /\ Str.value p = n
  /\ (n < 10000 -> String.length p = 4%nat)
  /\ (10000 <= n -> p = Num.decimal n).
Proof.
  cbv zeta. unfold Str.padStart.
  destruct (Nat.leb_spec 4 (String.length (Num.decimal n))) as [long|short].
  - repeat split; auto using decimal_allDigits, decimal_value.
    intro lt. pose proof (decimal_length_le 3 n lt). lia.
  - destruct (filler_zero (4 - String.length (Num.decimal n)) "0"
                (or_introl eq_refl)) as (L & D & V).
    repeat split.
    + now rewrite allDigits_append, D, decimal_allDigits.
    + unfold Str.value. rewrite valueFrom_append, V. apply decimal_value.
    + intros _. rewrite length_append, L. lia.
    + intro ge. pose proof (decimal_length_gt 4 n ge). lia.
Qed.

Lemma toString_nonneg (z : Z) :
  (0 <= z)%Z -> Num.toString z = Num.decimal (Z.to_N z).
Proof. destruct z; [reflexivity | reflexivity | lia]. Qed.

End DecimalFacts.

(** ** Running the hooks *)

Arguments Num.toString : simpl never.
Arguments Str.padStart : simpl never.
Arguments Str.slice : simpl never.
Arguments countMatching : simpl never.
Arguments String.append : simpl never.

Section HookFacts.

(** Runs the monadic code of a hook once its guard [G] and the state of
    the store [S] are known. *)
Ltac run_hook G S :=
  unfold bind, tryCatch, newDate, Date_now, countDocuments, next, ret,
    getFullYear;
  unfold online in S |- *;
  rewrite G; simpl; rewrite S;
  unfold logged, record, tick, asked; simpl;
  rewrite <- ?app_assoc; reflexivity.

Lemma case_pre_save_skip (c : CaseDoc) (w : World) :
  case_isNew c && not_ (caseNumber c) = false ->
  case_pre_save c w = (Ok c, logged [Next None] w).
Proof. intro G. unfold case_pre_save, bind. now rewrite G. Qed.

Lemma case_pre_save_happy (c : CaseDoc) (w : World) :
  case_isNew c && not_ (caseNumber c) = true ->
  online w = true ->
  let year := fullYear (clock w (reads w)) in
  let re := StartsWith ("CASE-" ++ Num.toString year ++ "-") in
  let count := countMatching re (numbers Case w) in
  case_pre_save c w
  = (Ok (set_caseNumber c
           ("CASE-" ++ Num.toString year ++ "-"
              ++ Str.padStart 4 "0" (Num.toString (count + 1)))),
     logged [CountDocuments Case re; Next None] (asked (tick w))).
Proof.
  intros G Up. cbv zeta.
  unfold case_pre_save. run_hook G Up.
Qed.

Lemma case_pre_save_fallback (c : CaseDoc) (w : World) :
  case_isNew c && not_ (caseNumber c) = true ->
  online w = false ->
  let year0 := fullYear (clock w (reads w)) in
  let year := fullYear (clock w (S (reads w))) in
  let now := epochMillis (clock w (S (S (reads w)))) in
  case_pre_save c w
  = (Ok (set_caseNumber c
           ("CASE-" ++ Num.toString year ++ "-"
              ++ Str.slice (-4) (Num.toString now))),
     logged [CountDocuments Case
               (StartsWith ("CASE-" ++ Num.toString year0 ++ "-"));
             Next None]
            (tick (tick (asked (tick w))))).
Proof.
  intros G Down. cbv zeta.
  unfold case_pre_save. run_hook G Down.
Qed.

Lemma invoice_number_skip (i : InvoiceDoc) (w : World) :
  not_ (invoiceNumber i) = false ->
  invoice_pre_save_number i w = (Ok i, logged [Next None] w).
Proof. intro G. unfold invoice_pre_save_number, bind. now rewrite G. Qed.

Lemma invoice_number_happy (i : InvoiceDoc) (w : World) :
  not_ (invoiceNumber i) = true ->
  online w = true ->
  let year := fullYear (clock w (reads w)) in
  let re := StartsWith ("INV-" ++ Num.toString year ++ "-") in
  let count := countMatching re (numbers Invoice w) in
  invoice_pre_save_number i w
  = (Ok (set_invoiceNumber i
           ("INV-" ++ Num.toString year ++ "-"
              ++ Str.padStart 4 "0" (Num.toString (count + 1)))),
     logged [CountDocuments Invoice re; Next None] (asked (tick w))).
Proof.
  intros G Up. cbv zeta.
  unfold invoice_pre_save_number. run_hook G Up.
Qed.

Lemma invoice_number_fallback (i : InvoiceDoc) (w : World) :
  not_ (invoiceNumber i) = true ->
  online w = false ->
  let year0 := fullYear (clock w (reads w)) in
  let year := fullYear (clock w (S (reads w))) in
  invoice_pre_save_number i w
  = (Ok (set_invoiceNumber i ("INV-" ++ Num.toString year ++ "-0001")),
     logged [CountDocuments Invoice
               (StartsWith ("INV-" ++ Num.toString year0 ++ "-"));
             Next None]
            (tick (asked (tick w)))).
Proof.
  intros G Down. cbv zeta.
  unfold invoice_pre_save_number. run_hook G Down.
Qed.

Lemma invoiceItem_pre_save_eq (it : InvoiceItem) (w : World) :
  invoiceItem_pre_save it w = (Ok (itemSaved it), logged [Next None] w).
Proof.
  unfold invoiceItem_pre_save, itemSaved, bind.
  now destruct (item_isModified it "quantity" || item_isModified it "rate").
Qed.

Lemma logged_logged (a b : list Event) (w : World) :
  logged b (logged a w) = logged (a ++ b) w.
Proof. unfold logged. simpl. now rewrite app_assoc. Qed.

Lemma forEach_items (l : list InvoiceItem) (w : World) :
  forEach invoiceItem_pre_save l w
  = (Ok (map itemSaved l), logged (repeat (Next None) (List.length l)) w).
Proof.
  revert w; induction l as [|it l IH]; intro w.
  - unfold logged. simpl. rewrite app_nil_r. now destruct w.
  - simpl. unfold bind. rewrite invoiceItem_pre_save_eq, IH.
    now rewrite logged_logged.
Qed.

Lemma invoice_total_eq (i : InvoiceDoc) (w : World) :
  invoice_pre_save_total i w = (Ok (totalSaved i), logged [Next None] w).
Proof.
  unfold invoice_pre_save_total, totalSaved, bind.
  now destruct (invoice_isModified i "items").
Qed.

(** The invoice on which the number hook runs, and the calls of [next]
    that precede it. *)
Lemma pre_save_invoice_eq (i : InvoiceDoc) (w : World) :
  pre_save (AnInvoice i) w
  = bind (invoice_pre_save_number
            (totalSaved (set_items i (map itemSaved (items i)))))
         (fun i2 => ret (AnInvoice i2))
         (logged (repeat (Next None) (List.length (items i)) ++ [Next None]) w).
Proof.
  unfold pre_save, bind at 1 2.
  rewrite forEach_items, invoice_total_eq, logged_logged. reflexivity.
Qed.

Lemma invoiceNumber_totalSaved (i : InvoiceDoc) (l : list InvoiceItem) :
  invoiceNumber (totalSaved (set_items i l)) = invoiceNumber i.
Proof. unfold totalSaved. now destruct (invoice_isModified _ _). Qed.

Lemma invoice_isNew_totalSaved (i : InvoiceDoc) (l : list InvoiceItem) :
  invoice_isNew (totalSaved (set_items i l)) = invoice_isNew i.
Proof. unfold totalSaved. now destruct (invoice_isModified _ _). Qed.

Lemma Forall_next_repeat (n : nat) :
  Forall (eq (Next None)) (repeat (Next None) n ++ [Next None]).
Proof.
  apply Forall_app; split; [|now constructor].
  apply Forall_forall. intros x H. symmetry. exact (repeat_spec _ _ _ H).
Qed.

(** An entity that carries an identifier, or a Case that is not new,
    goes through its hooks untouched: [next()] is all that happens. *)
Lemma pre_save_skip (e : Entity) (w : World) :
  wantsIdentifier e = false ->
  exists e' evs,
    pre_save e w = (Ok e', logged evs w)
    /\ identifier e' = identifier e
    /\ kindOf e' = kindOf e /\ isNew e' = isNew e
    /\ Forall (eq (Next None)) evs /\ evs <> [].
Proof.
  intro G. destruct e as [c|i]; simpl in G.
  - exists (ACase c), [Next None]. unfold pre_save, bind.
    rewrite case_pre_save_skip by exact G.
    repeat split; auto. discriminate.
  - rewrite pre_save_invoice_eq. unfold bind.
    rewrite invoice_number_skip
      by (now rewrite invoiceNumber_totalSaved).
    eexists _, _. rewrite logged_logged. split; [reflexivity|].
    simpl. rewrite invoiceNumber_totalSaved, invoice_isNew_totalSaved.
    repeat split.
    + apply Forall_app; split; [apply Forall_next_repeat | now constructor].
    + intro E. apply app_eq_nil in E. destruct E; discriminate.
Qed.

(** The happy path, for both kinds. *)
Lemma pre_save_happy (e : Entity) (w : World) :
  wantsIdentifier e = true ->
  online w = true ->
  let year := fullYear (clock w (reads w)) in
  exists e' pre,
    pre_save e w
    = (Ok e',
       logged (pre ++ [CountDocuments (kindOf e) (yearPattern (kindOf e) year);
                       Next None])
              (asked (tick w)))
    /\ Forall (eq (Next None)) pre
    /\ identifier e'
       = Some (formatIdentifier (kindOf e) year
                 (countOf (kindOf e) year w + 1))
    /\ kindOf e' = kindOf e /\ isNew e' = isNew e.
Proof.
  intros G Up. cbv zeta. destruct e as [c|i]; simpl in G.
  - eexists _, []. unfold pre_save, bind.
    rewrite case_pre_save_happy by assumption.
    repeat split; auto.
  - rewrite pre_save_invoice_eq. unfold bind.
    rewrite invoice_number_happy;
      [| now rewrite invoiceNumber_totalSaved | exact Up].
    eexists _, _. split.
    + unfold ret. f_equal. unfold logged, asked, tick. simpl.
      rewrite <- app_assoc. reflexivity.
    + split; [apply Forall_next_repeat|].
      simpl. rewrite invoice_isNew_totalSaved. repeat split.
Qed.

(** The fallback path, for both kinds: the count query has thrown, the
    hook goes on with the clock alone. *)
Lemma pre_save_fallback (e : Entity) (w : World) :
  wantsIdentifier e = true ->
  online w = false ->
  let year0 := fullYear (clock w (reads w)) in
  let year := fullYear (clock w (S (reads w))) in
  let now := epochMillis (clock w (S (S (reads w)))) in
  exists e' w' pre,
    pre_save e w = (Ok e', w')
    /\ trace w'
       = (trace w ++ pre
            ++ [CountDocuments (kindOf e) (yearPattern (kindOf e) year0);
                Next None])%list
    /\ Forall (eq (Next None)) pre
    /\ identifier e' = Some (fallbackIdentifier (kindOf e) year now)
    /\ kindOf e' = kindOf e /\ isNew e' = isNew e
    /\ sameStore w w' /\ requests w' = S (requests w).
Proof.
  intros G Down. cbv zeta. destruct e as [c|i]; simpl in G.
  - eexists _, _, []. unfold pre_save, bind.
    rewrite case_pre_save_fallback by assumption.
    repeat split; auto.
  - rewrite pre_save_invoice_eq. unfold bind.
    rewrite invoice_number_fallback;
      [| now rewrite invoiceNumber_totalSaved | exact Down].
    eexists _, _, _. split; [reflexivity|]. split.
    + simpl. rewrite <- app_assoc. reflexivity.
    + split; [apply Forall_next_repeat|].
      simpl. rewrite invoice_isNew_totalSaved. repeat split.
Qed.

End HookFacts.

(** ** The allocator *)

Section Allocation.

Lemma countMatching_nonneg (re : RegExp) (column : list (option string)) :
  (0 <= countMatching re column)%Z.
Proof. unfold countMatching. lia. Qed.

Lemma new_without_identifier (e : Entity) :
  isNew e = true -> not_ (identifier e) = true -> wantsIdentifier e = true.
Proof. destruct e; simpl; intros A B; rewrite ?A, ?B; reflexivity. Qed.

Lemma not_nonempty (v : option string) (s : string) :
  v = Some s -> s <> "" -> not_ v = false.
Proof. intros -> H. destruct s; [now elim H | reflexivity]. Qed.

Lemma identifier_persisted (e : Entity) :
  identifier (persisted e) = identifier e /\ kindOf (persisted e) = kindOf e.
Proof. now destruct e. Qed.

(** The zero-padded sequence of an identifier. *)
Lemma sequence_suffix (sequence : Z) :
  (0 <= sequence)%Z ->
  let suffix := Str.padStart 4 "0" (Num.toString sequence) in
  Str.allDigits suffix = true
  /\ Z.of_N (Str.value suffix) = sequence
  /\ ((sequence < 10000)%Z -> String.length suffix = 4)
  /\ ((10000 <= sequence)%Z -> suffix = Num.toString sequence).
Proof.
  intro H. cbv zeta. rewrite toString_nonneg by exact H.
  destruct (pad4_spec (Z.to_N sequence)) as (D & V & S & L).
  repeat split.
  - exact D.
  - rewrite V. lia.
  - intro lt. apply S. lia.
  - intro ge. apply L. lia.
Qed.

End Allocation.

(** C1. Happy path: an entity of either kind that is created without an
    identifier, against a store that answers the count query, leaves its
    hooks with the identifier PREFIX-year-suffix, where the year is that
    of the clock and the suffix is the number of stored identifiers of
    that year plus one, in decimal digits: four of them, padded with
    zeros, below ten thousand, and all its digits from there on. *)
Theorem happy_path_allocation (e : Entity) (w : World) :
  isNew e = true ->
  not_ (identifier e) = true ->
  online w = true ->
  let kind := kindOf e in
  let year := fullYear (clock w (reads w)) in
  let count := countOf kind year w in
  exists e' w' suffix,
    pre_save e w = (Ok e', w')
    /\ identifier e'
       = Some (prefixOf kind ++ "-" ++ Num.toString year ++ "-" ++ suffix)
    /\ suffix = Str.padStart 4 "0" (Num.toString (count + 1))
    /\ Str.allDigits suffix = true
    /\ Z.of_N (Str.value suffix) = (count + 1)%Z
    /\ ((count + 1 < 10000)%Z -> String.length suffix = 4)
    /\ ((10000 <= count + 1)%Z -> suffix = Num.toString (count + 1)).
Proof.
  intros New Blank Up. cbv zeta.
  destruct (pre_save_happy e w (new_without_identifier e New Blank) Up)
    as (e' & pre & Run & _ & Id & _).
  eexists e', _, _. split; [exact Run|].
  split; [exact Id|]. split; [reflexivity|].
  apply sequence_suffix.
  pose proof (countMatching_nonneg
                (yearPattern (kindOf e) (fullYear (clock w (reads w))))
                (numbers (kindOf e) w)).
  unfold countOf. lia.
Qed.

Lemma happy_path_allocation_witness :
  exists e' w' suffix,
    pre_save (ACase blankCase) world0 = (Ok e', w')
    /\ identifier e' = Some ("CASE" ++ "-" ++ Num.toString 2024 ++ "-" ++ suffix)
    /\ suffix = Str.padStart 4 "0" (Num.toString (0 + 1))
    /\ Str.allDigits suffix = true
    /\ Z.of_N (Str.value suffix) = (0 + 1)%Z
    /\ ((0 + 1 < 10000)%Z -> String.length suffix = 4)
    /\ ((10000 <= 0 + 1)%Z -> suffix = Num.toString (0 + 1)).
Proof.
  exact (happy_path_allocation (ACase blankCase) world0
           eq_refl eq_refl eq_refl).
Defined.

Example first_case_of_the_year :
  fst (pre_save (ACase blankCase) world0)
  = Ok (ACase (mkCase true (Some "CASE-2024-0001") "Estate of A" true)).
Proof. vm_compute. reflexivity. Qed.

Example ten_thousandth_case :
  fst (pre_save (ACase blankCase) (worldWith (casesOf2024 9999) []))
  = Ok (ACase (mkCase true (Some "CASE-2024-10000") "Estate of A" true)).
Proof. vm_compute. reflexivity. Qed.

Example forty_second_invoice :
  fst (pre_save (AnInvoice blankInvoice) (worldWith [] (invoicesOf2024 41)))
  = Ok (AnInvoice (mkInvoice true (Some "INV-2024-0042") 0%float []
                             unmodified true)).
Proof. vm_compute. reflexivity. Qed.

(** C2. An entity that carries a non-empty identifier, of whatever shape,
    leaves its hooks with that identifier; the hooks issue no count
    query: the store receives no request, the clock is not read, and the
    only events are calls of next without an error. *)
Theorem presupplied_identifier_kept
  (e : Entity) (w : World) (existing : string) :
  identifier e = Some existing ->
  existing <> "" ->
  exists e' w' evs,
    pre_save e w = (Ok e', w')
    /\ identifier e' = Some existing
    /\ trace w' = (trace w ++ evs)%list
    /\ filter isQuery evs = []
    /\ requests w' = requests w
    /\ reads w' = reads w.
Proof.
  intros Id NonEmpty.
  assert (wantsIdentifier e = false) as G.
  { pose proof (not_nonempty _ _ Id NonEmpty) as F.
    destruct e; simpl in *; rewrite F; auto using andb_false_r. }
  destruct (pre_save_skip e w G) as (e' & evs & Run & Same & _ & _ & Nexts & _).
  exists e', (logged evs w), evs. split; [exact Run|].
  split; [now rewrite Same|].
  repeat split.
  clear Run. induction Nexts as [|ev evs <- _ IH]; [reflexivity | exact IH].
Qed.

Lemma presupplied_identifier_kept_witness :
  exists e' w' evs,
    pre_save (ACase (mkCase true (Some "CASE-2024-0007") "Estate of A" true))
             (worldWith (casesOf2024 3) []) = (Ok e', w')
    /\ identifier e' = Some "CASE-2024-0007"
    /\ trace w' = (trace (worldWith (casesOf2024 3) []) ++ evs)%list
    /\ filter isQuery evs = []
    /\ requests w' = requests (worldWith (casesOf2024 3) [])
    /\ reads w' = reads (worldWith (casesOf2024 3) []).
Proof.
  apply (presupplied_identifier_kept
           (ACase (mkCase true (Some "CASE-2024-0007") "Estate of A" true))
           (worldWith (casesOf2024 3) []) "CASE-2024-0007").
  - reflexivity.
  - discriminate.
Defined.

Example malformed_identifier_kept :
  fst (pre_save (AnInvoice (mkInvoice true (Some "0") 0%float [] unmodified true))
                (outage world0))
  = Ok (AnInvoice (mkInvoice true (Some "0") 0%float [] unmodified true)).
Proof. vm_compute. reflexivity. Qed.

(** C3. Two allocations of the same kind that read the same year and
    observe the same count compute the same sequence and leave the same
    identifier on their entities, whatever else differs between the two
    runs; nothing in the hooks keeps two saves from reading one count. *)
Theorem same_count_same_identifier (e1 e2 : Entity) (w1 w2 : World) :
  kindOf e1 = kindOf e2 ->
  isNew e1 = true -> not_ (identifier e1) = true -> online w1 = true ->
  isNew e2 = true -> not_ (identifier e2) = true -> online w2 = true ->
  fullYear (clock w1 (reads w1)) = fullYear (clock w2 (reads w2)) ->
  countOf (kindOf e1) (fullYear (clock w1 (reads w1))) w1
  = countOf (kindOf e2) (fullYear (clock w2 (reads w2))) w2 ->
  exists e1' w1' e2' w2' id,
    pre_save e1 w1 = (Ok e1', w1')
    /\ pre_save e2 w2 = (Ok e2', w2')
    /\ identifier e1' = Some id
    /\ identifier e2' = Some id
    /\ id = formatIdentifier (kindOf e1) (fullYear (clock w1 (reads w1)))
              (countOf (kindOf e1) (fullYear (clock w1 (reads w1))) w1 + 1).
Proof.
  intros K New1 Blank1 Up1 New2 Blank2 Up2 Y C.
  destruct (pre_save_happy e1 w1 (new_without_identifier e1 New1 Blank1) Up1)
    as (e1' & pre1 & Run1 & _ & Id1 & _).
  destruct (pre_save_happy e2 w2 (new_without_identifier e2 New2 Blank2) Up2)
    as (e2' & pre2 & Run2 & _ & Id2 & _).
  cbv zeta in *. rewrite <- C, <- Y, <- K in Id2.
  eexists e1', _, e2', _, _.
  split; [exact Run1|]. split; [exact Run2|].
  split; [exact Id1|]. split; [exact Id2 | reflexivity].
Qed.

(** Two saves against five Cases of 2024: when the second hook runs
    before the first document is written, both read the count 5. *)
Lemma same_count_same_identifier_witness :
  let w1 := worldWith (casesOf2024 5) [] in
  let w2 := snd (pre_save (ACase blankCase) w1) in
  exists e1' w1' e2' w2' id,
    pre_save (ACase blankCase) w1 = (Ok e1', w1')
    /\ pre_save (ACase (mkCase true None "Estate of B" true)) w2 = (Ok e2', w2')
    /\ identifier e1' = Some id
    /\ identifier e2' = Some id
    /\ id = formatIdentifier Case 2024 (5 + 1).
Proof.
  exact (same_count_same_identifier
           (ACase blankCase) (ACase (mkCase true None "Estate of B" true))
           (worldWith (casesOf2024 5) [])
           (snd (pre_save (ACase blankCase) (worldWith (casesOf2024 5) [])))
           eq_refl eq_refl eq_refl eq_refl eq_refl eq_refl eq_refl
           eq_refl eq_refl).
Defined.

(** The race in full: both entities get CASE-2024-0006, the first write
    is accepted, the second is rejected by the unique index. *)
Example race_of_two_saves :
  fst (twoSavesInterleaved (ACase blankCase)
         (ACase (mkCase true None "Estate of B" true))
         (worldWith (casesOf2024 5) []))
  = Ok (ACase (mkCase false (Some "CASE-2024-0006") "Estate of A" true),
        Throw DuplicateKey).
Proof. vm_compute. reflexivity. Qed.

Section Outcome.

Lemma last_of_nexts (evs : list Event) (d : Event) :
  Forall (eq (Next None)) evs -> evs <> [] -> last evs d = Next None.
Proof.
  induction 1 as [|ev evs <- _ IH]; intro NE; [now elim NE|].
  destruct evs as [|ev' evs']; [reflexivity|].
  change (last (ev' :: evs') d = Next None). apply IH. discriminate.
Qed.

Lemma nexts_without_error (pre : list Event) (q : Event) (err : option Error) :
  Forall (eq (Next None)) pre -> isQuery q = true ->
  In (Next err) (pre ++ [q; Next None]) -> err = None.
Proof.
  intros F Q H. apply in_app_or in H. destruct H as [H | [H | [H | []]]].
  - rewrite Forall_forall in F. specialize (F _ H). congruence.
  - subst q. discriminate Q.
  - congruence.
Qed.

Lemma last_two (pre : list Event) (q n d : Event) :
  last (pre ++ [q; n]) d = n.
Proof.
  change (pre ++ [q; n])%list with (pre ++ ([q] ++ [n]))%list.
  rewrite app_assoc. apply last_last.
Qed.

Lemma formatIdentifier_nonempty (kind : Kind) (year sequence : Z) :
  not_ (Some (formatIdentifier kind year sequence)) = false.
Proof. now destruct kind. Qed.

Lemma fallbackIdentifier_nonempty (kind : Kind) (year now : Z) :
  not_ (Some (fallbackIdentifier kind year now)) = false.
Proof. now destruct kind. Qed.

(** Whatever the entity and the world, the save middleware returns: with
    the entity, after calls of [next] that carry no error, the last event
    being such a call. *)
Lemma pre_save_outcome (e : Entity) (w : World) :
  exists e' w' evs,
    pre_save e w = (Ok e', w')
    /\ trace w' = (trace w ++ evs)%list
    /\ sameStore w w'
    /\ kindOf e' = kindOf e /\ isNew e' = isNew e
    /\ (forall err, In (Next err) evs -> err = None)
    /\ last evs (Next (Some StorageError)) = Next None
    /\ (wantsIdentifier e = false -> identifier e' = identifier e)
    /\ (wantsIdentifier e = true -> not_ (identifier e') = false).
Proof.
  destruct (wantsIdentifier e) eqn:G; [destruct (online w) eqn:Up|].
  - destruct (pre_save_happy e w G Up) as (e' & pre & Run & F & Id & K & N).
    eexists e', _, _. split; [exact Run|]. split; [reflexivity|].
    split; [repeat split|].
    repeat split; auto; try discriminate; try apply last_two.
    + intros err H.
      eapply nexts_without_error; [exact F | | exact H]; reflexivity.
    + intros _. rewrite Id. apply formatIdentifier_nonempty.
  - destruct (pre_save_fallback e w G Up)
      as (e' & w' & pre & Run & T & F & Id & K & N & Same & _).
    eexists e', w', _. split; [exact Run|]. split; [exact T|].
    split; [exact Same|].
    repeat split; auto; try discriminate; try apply last_two.
    + intros err H.
      eapply nexts_without_error; [exact F | | exact H]; reflexivity.
    + intros _. rewrite Id. apply fallbackIdentifier_nonempty.
  - destruct (pre_save_skip e w G) as (e' & evs & Run & Id & K & N & F & NE).
    exists e', (logged evs w), evs. split; [exact Run|].
    repeat split; auto; try discriminate.
    + intros err H. rewrite Forall_forall in F. specialize (F _ H).
      congruence.
    + now apply last_of_nexts.
Qed.

End Outcome.

(** ** Validation first *)

Section Lifecycle.

Lemma validate_pass (e : Entity) (w : World) :
  validates e = true -> validate e w = (Ok tt, w).
Proof. intro V. unfold validate. now rewrite V. Qed.

Lemma validate_fail (e : Entity) (w : World) :
  validates e = false -> validate e w = (Throw ValidationError, w).
Proof. intro V. unfold validate. now rewrite V. Qed.

Lemma beforeWrite_pass (e : Entity) (w : World) :
  validates e = true -> beforeWrite e w = pre_save e w.
Proof. intro V. unfold beforeWrite, bind. now rewrite validate_pass. Qed.

Lemma beforeWrite_fail (e : Entity) (w : World) :
  validates e = false -> beforeWrite e w = (Throw ValidationError, w).
Proof. intro V. unfold beforeWrite, bind. now rewrite validate_fail. Qed.

Lemma create_pass (e : Entity) (w : World) :
  validates e = true ->
  create e w = bind (pre_save e) insertOne w.
Proof. intro V. unfold create, bind. now rewrite validate_pass. Qed.

Lemma create_fail (e : Entity) (w : World) :
  validates e = false -> create e w = (Throw ValidationError, w).
Proof. intro V. unfold create, bind. now rewrite validate_fail. Qed.

(** An invoice that passes validation carries a number: the allocator
    has nothing to do for it. *)
Lemma valid_invoice_numbered (i : InvoiceDoc) :
  validates (AnInvoice i) = true -> not_ (invoiceNumber i) = false.
Proof.
  simpl. unfold required. intro V.
  destruct (not_ (invoiceNumber i)); [discriminate V | reflexivity].
Qed.

(** The allocator runs in a save only for a Case that is new and carries
    no number. *)
Lemma allocator_runs_for (e : Entity) :
  validates e = true -> wantsIdentifier e = true ->
  kindOf e = Case /\ isNew e = true /\ not_ (identifier e) = true.
Proof.
  destruct e as [c|i]; intros V G.
  - simpl in G. apply andb_true_iff in G. now destruct G.
  - simpl in G. rewrite (valid_invoice_numbered i V) in G. discriminate G.
Qed.

(** A save in which the allocator has nothing to do leaves the
    identifier, the count of requests and the clock as they were. *)
Lemma save_without_allocation (e : Entity) (w : World) :
  validates e = false \/ wantsIdentifier e = false ->
  identifier (afterSave e w) = identifier e
  /\ requests (snd (beforeWrite e w)) = requests w
  /\ reads (snd (beforeWrite e w)) = reads w.
Proof.
  unfold afterSave. destruct (validates e) eqn:V.
  - intros [F|G]; [discriminate F|].
    rewrite beforeWrite_pass by exact V.
    destruct (pre_save_skip e w G) as (e' & evs & Run & Id & _).
    rewrite Run. now repeat split.
  - intros _. rewrite beforeWrite_fail by exact V. now repeat split.
Qed.

End Lifecycle.

(** C4. The identifier is assigned at the first save of an entity and by
    no later one.  Whatever becomes of the save of an entity that is
    already persisted, of either kind, the entity leaves it with the
    identifier field as it was, and the allocator has stayed out of it:
    the store has received no request and the clock has not been read.
    A save changes the identifier only of an entity that is new and
    carries none; an entity that carries a non-empty identifier keeps
    it; and the entity that the creation of a new one persists carries a
    non-empty identifier, which every later save leaves unchanged. *)
Theorem identifier_assigned_once (e : Entity) (w : World) :
  (isNew e = false ->
   identifier (afterSave e w) = identifier e
   /\ requests (snd (beforeWrite e w)) = requests w
   /\ reads (snd (beforeWrite e w)) = reads w)
  /\ (identifier (afterSave e w) <> identifier e ->
      isNew e = true /\ not_ (identifier e) = true)
  /\ (not_ (identifier e) = false ->
      identifier (afterSave e w) = identifier e)
  /\ (isNew e = true ->
      forall e' w', create e w = (Ok e', w') ->
        isNew e' = false
        /\ not_ (identifier e') = false
        /\ forall w2, identifier (afterSave e' w2) = identifier e').
Proof.
  assert (forall e0 w0, not_ (identifier e0) = false ->
            identifier (afterSave e0 w0) = identifier e0) as Once.
  { intros e0 w0 Full. apply save_without_allocation. right.
    destruct e0; simpl in *; rewrite Full; auto using andb_false_r. }
  split; [|split; [|split]].
  - intro Old. apply save_without_allocation.
    destruct (validates e) eqn:V; [right | now left].
    destruct (wantsIdentifier e) eqn:G; [|reflexivity].
    destruct (allocator_runs_for e V G) as (_ & New & _). congruence.
  - intro Changed.
    destruct (validates e) eqn:V.
    + destruct (wantsIdentifier e) eqn:G.
      * now destruct (allocator_runs_for e V G) as (_ & New & Blank).
      * elim Changed. apply save_without_allocation. now right.
    + elim Changed. apply save_without_allocation. now left.
  - apply Once.
  - intros New e' w' Run.
    destruct (validates e) eqn:V;
      [|rewrite create_fail in Run by exact V; discriminate Run].
    rewrite create_pass in Run by exact V. unfold bind in Run.
    destruct (pre_save_outcome e w)
      as (e1 & w1 & evs & Pre & _ & _ & _ & _ & _ & _ & Kept & Given).
    rewrite Pre in Run.
    assert (not_ (identifier e1) = false) as Full.
    { destruct (wantsIdentifier e) eqn:G; [now apply Given|].
      rewrite (Kept eq_refl).
      destruct e as [c|i]; simpl in *.
      - rewrite New in G. exact G.
      - exact G. }
    assert (e' = persisted e1) as ->.
    { unfold insertOne in Run.
      destruct (negb (online w1)); [discriminate Run|].
      destruct (existsb _ _); [discriminate Run|]. now injection Run as <- _. }
    destruct (identifier_persisted e1) as (IdP & _).
    split; [now destruct e1|]. split; [now rewrite IdP|].
    intro w2. apply Once. now rewrite IdP.
Qed.

Example saved_case_is_left_alone :
  afterSave (ACase (mkCase false None "Estate of A" true)) world0
  = ACase (mkCase false None "Estate of A" true).
Proof. vm_compute. reflexivity. Qed.

(** The hook of an Invoice does not ask whether the invoice is new; the
    validation that runs before it keeps every invoice without number
    away from it. *)
Example saved_invoice_is_rejected :
  beforeWrite (AnInvoice (mkInvoice false None 0%float [] unmodified true))
              world0
  = (Throw ValidationError, world0).
Proof. vm_compute. reflexivity. Qed.

(** C5. When the count query of an Invoice without identifier throws,
    the invoice leaves its hooks with exactly INV-year-0001, the year
    being that of the clock read in the handler; neither the collections
    nor anything that happened before enter the result. *)
Theorem invoice_fallback_literal (i : InvoiceDoc) (w : World) :
  not_ (invoiceNumber i) = true ->
  online w = false ->
  exists i' w',
    pre_save (AnInvoice i) w = (Ok (AnInvoice i'), w')
    /\ invoiceNumber i'
       = Some ("INV-" ++ Num.toString (fullYear (clock w (S (reads w))))
                      ++ "-0001").
Proof.
  intros Blank Down.
  destruct (pre_save_fallback (AnInvoice i) w Blank Down)
    as (e' & w' & pre & Run & _ & _ & Id & K & _).
  destruct e' as [c|i']; [discriminate K|].
  exists i', w'. split; [exact Run | exact Id].
Qed.

Lemma invoice_fallback_literal_witness :
  exists i' w',
    pre_save (AnInvoice blankInvoice)
             (outage (worldWith [] (invoicesOf2024 41)))
    = (Ok (AnInvoice i'), w')
    /\ invoiceNumber i' = Some ("INV-" ++ Num.toString 2024 ++ "-0001").
Proof.
  exact (invoice_fallback_literal blankInvoice
           (outage (worldWith [] (invoicesOf2024 41))) eq_refl eq_refl).
Defined.

(** The fallback fires twice: the hook gives the second invoice the
    identifier that it gave the first, although the collection holds
    it. *)
Example invoice_fallback_twice :
  let w1 := worldWith [] (invoicesOf2024 1) in
  fst (pre_save (AnInvoice blankInvoice) (outage world0))
  = Ok (AnInvoice (mkInvoice true (Some "INV-2024-0001") 0%float []
                             unmodified true))
  /\ map invoiceNumber (invoices w1) = [Some "INV-2024-0001"]
  /\ fst (pre_save (AnInvoice blankInvoice) (outage w1))
     = Ok (AnInvoice (mkInvoice true (Some "INV-2024-0001") 0%float []
                                unmodified true)).
Proof. vm_compute. repeat split. Qed.

Section Timestamp.

(** From the first second after the epoch on, the slice is the four low
    decimal digits of the timestamp. *)
Lemma last4Digits_spec (now : Z) :
  (1000 <= now)%Z ->
  String.length (last4Digits now) = 4
  /\ Str.allDigits (last4Digits now) = true
  /\ Z.of_N (Str.value (last4Digits now)) = (now mod 10000)%Z.
Proof.
  intro H. unfold last4Digits. rewrite toString_nonneg by lia.
  set (n := Z.to_N now).
  assert (1000 <= n)%N as Hn by (unfold n; lia).
  destruct (decimal_last4 n Hn) as [pre ->]. rewrite slice_last4.
  assert (forall m, (m mod 10 < 10)%N) as B
      by (intro m; apply N.mod_upper_bound; lia).
  repeat split.
  - simpl. now rewrite !digitChar_isDigit by apply B.
  - unfold Str.value. cbn [Str.valueFrom].
    rewrite !digitChar_code by apply B.
    replace now with (Z.of_N n) by (unfold n; lia).
    change 10000%Z with (Z.of_N 10000). rewrite <- N2Z.inj_mod. f_equal.
    rewrite <- (last4_value n).
    generalize ((n / 10 / 10 / 10) mod 10)%N ((n / 10 / 10) mod 10)%N
               ((n / 10) mod 10)%N (n mod 10)%N.
    intros; lia.
Qed.

End Timestamp.



Example case_fallback_2024 :
  fst (pre_save (ACase blankCase) (outage world0))
  = Ok (ACase (mkCase true (Some "CASE-2024-1234") "Estate of A" true)).
Proof. vm_compute. reflexivity. Qed.

(** Within the first second after the epoch the timestamp has fewer than
    four digits and the slice is all of it. *)
Example case_fallback_at_the_epoch :
  fst (pre_save (ACase blankCase)
         (outage (mkWorld (fun _ => mkInstant 999 1970) 0 (fun _ => true) 0
                          [] [] [])))
  = Ok (ACase (mkCase true (Some "CASE-1970-999") "Estate of A" true)).
Proof. vm_compute. reflexivity. Qed.


(** C7. Whatever the entity and the world, the save middleware returns
    and hands the entity on: every call of next that it makes carries no
    error and the last thing it does is such a call.  In particular,
    where an identifier is wanted and the store does not answer, the
    count query is issued and throws, the entity still leaves the hooks
    with a non-empty identifier, that of the fallback, and if the store
    answers the write that follows, the creation does not end in the
    error of the query. *)
Theorem count_failure_contained (e : Entity) (w : World) :
  exists e' w' evs,
    pre_save e w = (Ok e', w')
    /\ trace w' = (trace w ++ evs)%list
    /\ (forall err, In (Next err) evs -> err = None)
    /\ last evs (Next (Some StorageError)) = Next None
    /\ (wantsIdentifier e = true -> not_ (identifier e') = false)
    /\ (wantsIdentifier e = true -> online w = false ->
        (forall re, fst (countDocuments (kindOf e) re w) = Throw StorageError)
        /\ Exists (fun ev => isQuery ev = true) evs
        /\ identifier e'
           = Some (fallbackIdentifier (kindOf e)
                     (fullYear (clock w (S (reads w))))
                     (epochMillis (clock w (S (S (reads w))))))
        /\ (answers w (S (requests w)) = true ->
            fst (create e w) <> Throw StorageError)).
Proof.
  destruct (pre_save_outcome e w)
    as (e' & w' & evs & Run & T & _ & _ & _ & NoErr & Last & _ & Given).
  exists e', w', evs. split; [exact Run|]. split; [exact T|].
  split; [exact NoErr|]. split; [exact Last|]. split; [exact Given|].
  intros G Down.
  destruct (pre_save_fallback e w G Down)
    as (e2 & w2 & pre & Run2 & T2 & _ & Id & _ & _ & Same & Req).
  rewrite Run in Run2. injection Run2 as <- <-.
  rewrite T in T2. apply app_inv_head in T2. subst evs.
  repeat split.
  - intro re. unfold countDocuments. now rewrite Down.
  - apply Exists_app. right. now constructor.
  - exact Id.
  - intro Back. destruct (validates e) eqn:V;
      [|rewrite create_fail by exact V; discriminate].
    rewrite create_pass by exact V. unfold bind. rewrite Run.
    unfold insertOne, online. destruct Same as (_ & -> & _).
    rewrite Req, Back. simpl. now destruct (existsb _ _).
Qed.

Example case_creation_survives_outage :
  fst (create (ACase blankCase) (outage world0))
  = Ok (ACase (mkCase false (Some "CASE-2024-1234") "Estate of A" true)).
Proof. vm_compute. reflexivity. Qed.

(** ** The total of an invoice *)

Section Total.


(** A list of items has one sum. *)
Lemma SumsTo_functional (l : list InvoiceItem) (s s' : float) :
  SumsTo l s -> SumsTo l s' -> s = s'.
Proof.
  intro H. revert s'. induction H as [|l s it H IH]; intros s' H'.
  - inversion H' as [|l' s0 it' H0 E]; [reflexivity|].
    destruct l'; discriminate.
  - inversion H' as [E|l' s0 it' H0 E].
    + destruct l; discriminate.
    + apply app_inj_tail in E as [-> ->]. f_equal. now apply IH.
Qed.


End Total.


Example total_of_two_items :
  fst (pre_save
         (AnInvoice (mkInvoice true None 0%float [halfHour; flatFee]
                               (fun path => String.eqb path "items") true))
         world0)
  = Ok (AnInvoice
          (mkInvoice true (Some "INV-2024-0001") 1350%float
                     [mkItem 0.5%float 300%float 150%float
                             (fun path => String.eqb path "quantity");
                      flatFee]
                     (fun path => String.eqb path "items") true)).
Proof. vm_compute. reflexivity. Qed.

(** The amounts are added in the order of the items, in binary64: one
    is absorbed by ten to the sixteenth. *)
Example total_in_item_order :
  reduce (fun sum item => (sum + amount item)%float) 0%float
         [mkItem 1 1 10000000000000000 unmodified;
          mkItem 1 1 1 unmodified;
          mkItem 1 1 (-10000000000000000) unmodified]
  = 0%float.
Proof. vm_compute. reflexivity. Qed.

Example total_left_alone :
  fst (pre_save
         (AnInvoice (mkInvoice false (Some "INV-2024-0003") 75%float
                               [flatFee] unmodified true))
         world0)
  = Ok (AnInvoice (mkInvoice false (Some "INV-2024-0003") 75%float
                             [flatFee] unmodified true)).
Proof. vm_compute. reflexivity. Qed.

(** ** Counting and persisting *)

Section Column.

Lemma countMatching_app (re : RegExp) (l1 l2 : list (option string)) :
  countMatching re (l1 ++ l2)
  = (countMatching re l1 + countMatching re l2)%Z.
Proof. unfold countMatching. rewrite filter_app, length_app. lia. Qed.

Lemma countMatching_one (re : RegExp) (id : string) :
  test re id = true -> countMatching re [Some id] = 1%Z.
Proof. intro H. unfold countMatching. simpl. now rewrite H. Qed.

Lemma sameKey_eq (a b : option string) : sameKey a b = true -> a = b.
Proof.
  destruct a as [x|], b as [y|]; simpl; try discriminate; auto.
  intro H. apply String.eqb_eq in H. now subst.
Qed.

Lemma numbers_store (e : Entity) (w : World) :
  numbers (kindOf e) (store e w) = (numbers (kindOf e) w ++ [identifier e])%list.
Proof. destruct e; simpl; apply map_app. Qed.

(** The write of an identifier that the collection does not hold. *)
Lemma insertOne_fresh (e : Entity) (w : World) :
  online w = true ->
  ~ In (identifier e) (numbers (kindOf e) w) ->
  insertOne e w = (Ok (persisted e), store (persisted e) (asked w)).
Proof.
  intros Up Fresh. unfold insertOne. rewrite Up. simpl.
  destruct (existsb _ _) eqn:E; [|reflexivity].
  apply existsb_exists in E. destruct E as (x & In_x & Key).
  apply sameKey_eq in Key. subst x. now elim Fresh.
Qed.

End Column.

(** ** The namespace of one kind and one year *)

Section Namespace.

Variables (kind : Kind) (year : Z).

Lemma formatIdentifier_split (sequence : Z) :
  formatIdentifier kind year sequence
  = yearNamespace kind year ++ Str.padStart 4 "0" (Num.toString sequence).
Proof.
  unfold formatIdentifier, yearNamespace. now rewrite !append_assoc.
Qed.

Lemma format_in_namespace (sequence : Z) :
  test (yearPattern kind year) (formatIdentifier kind year sequence) = true.
Proof. rewrite formatIdentifier_split. apply prefix_append. Qed.

Lemma sequenceOf_format (sequence : Z) :
  (0 <= sequence)%Z ->
  sequenceOf kind year (formatIdentifier kind year sequence)
  = Z.to_N sequence.
Proof.
  intro H. unfold sequenceOf.
  rewrite formatIdentifier_split, drop_append.
  destruct (sequence_suffix sequence H) as (_ & V & _). lia.
Qed.

(** Two sequences, two identifiers. *)
Lemma formatIdentifier_inj (a b : Z) :
  (0 <= a)%Z -> (0 <= b)%Z ->
  formatIdentifier kind year a = formatIdentifier kind year b -> a = b.
Proof.
  intros Ha Hb E. apply (f_equal (sequenceOf kind year)) in E.
  rewrite !sequenceOf_format in E by assumption. lia.
Qed.

Lemma sequences_of_formats (l : list nat) :
  map (option_map (sequenceOf kind year))
      (map (fun k => Some (formatIdentifier kind year (Z.of_nat k))) l)
  = map (fun k => Some (N.of_nat k)) l.
Proof.
  rewrite map_map. apply map_ext. intro k. simpl.
  rewrite sequenceOf_format by lia. f_equal. lia.
Qed.

(** One creation, of an entity that passes validation, in a world whose
    clock stays in [year] and whose store answers: the entity gets the
    next sequence and the invariant moves on by one. *)
Lemma create_next (m : nat) (e : Entity) (w : World) :
  kindOf e = kind -> isNew e = true -> not_ (identifier e) = true ->
  validates e = true ->
  (forall k, answers w k = true) ->
  (forall k, fullYear (clock w k) = year) ->
  upTo kind year m w ->
  exists e' w',
    create e w = (Ok e', w')
    /\ identifier e' = Some (formatIdentifier kind year (Z.of_nat (S m)))
    /\ answers w' = answers w /\ clock w' = clock w
    /\ upTo kind year (S m) w'.
Proof.
  intros K New Blank V Up Year (Count & Known).
  destruct (pre_save_happy e w (new_without_identifier e New Blank) (Up _))
    as (e1 & pre & Run & _ & Id & K1 & _).
  cbv zeta in Run, Id. rewrite ?Year, ?K in Run. rewrite Year, K, Count in Id.
  replace (Z.of_nat m + 1)%Z with (Z.of_nat (S m)) in Id by lia.
  set (w1 := logged _ _) in Run.
  assert (numbers kind w1 = numbers kind w) as Same by now destruct kind.
  rewrite create_pass by exact V. unfold bind. rewrite Run.
  rewrite insertOne_fresh; [| apply Up |].
  - destruct (identifier_persisted e1) as (IdP & KP).
    eexists _, _. split; [reflexivity|].
    split; [now rewrite IdP|].
    split; [now destruct e1|]. split; [now destruct e1|].
    pose proof (numbers_store (persisted e1) (asked w1)) as Col.
    rewrite KP, K1, K, IdP in Col.
    replace (numbers kind (asked w1)) with (numbers kind w) in Col
      by now destruct kind.
    unfold upTo, countOf. rewrite Col, Id. split.
    + rewrite countMatching_app, countMatching_one
        by apply format_in_namespace.
      unfold countOf in Count. rewrite Count. lia.
    + intros id H T. apply in_app_or in H. destruct H as [H | [H | []]].
      * destruct (Known id H T) as (j & B & E). exists j. split; [lia | exact E].
      * injection H as <-. exists (S m). split; [lia | reflexivity].
  - rewrite K1, K, Same, Id. intro H.
    destruct (Known _ H (format_in_namespace _)) as (j & B & E).
    apply formatIdentifier_inj in E; lia.
Qed.

Lemma createAll_from (es : list Entity) :
  Forall (fun e => kindOf e = kind /\ isNew e = true
                   /\ not_ (identifier e) = true
                   /\ validates e = true) es ->
  forall (m : nat) (w : World),
    (forall k, answers w k = true) ->
    (forall k, fullYear (clock w k) = year) ->
    upTo kind year m w ->
    exists es' w',
      createAll es w = (Ok es', w')
      /\ map identifier es'
         = map (fun k => Some (formatIdentifier kind year (Z.of_nat k)))
               (seq (S m) (List.length es)).
Proof.
  induction 1 as [|e es (K & New & Blank & V) _ IH]; intros m w Up Year Inv.
  - now exists [], w.
  - destruct (create_next m e w K New Blank V Up Year Inv)
      as (e' & w1 & Run & Id & Ans & Clk & Inv1).
    destruct (IH (S m) w1) as (es' & w' & Rest & Ids); auto.
    + intro k. now rewrite Ans.
    + intro k. now rewrite Clk.
    + exists (e' :: es'), w'. simpl. unfold bind. rewrite Run, Rest.
      split; [reflexivity|]. simpl. now rewrite Id, Ids.
Qed.

(** A collection without identifiers of the year satisfies the
    invariant at zero. *)
Lemma upTo_zero (w : World) : countOf kind year w = 0%Z -> upTo kind year 0 w.
Proof.
  intro Empty. split; [exact Empty|]. intros id H T. exfalso.
  unfold countOf, countMatching in Empty.
  assert (In (Some id)
            (filter (fieldMatches (yearPattern kind year)) (numbers kind w)))
    as F by (apply filter_In; split; assumption).
  destruct (filter _ _); [contradiction | discriminate].
Qed.

End Namespace.

Lemma fallbackIdentifier_split (year now : Z) :
  fallbackIdentifier Case year now
  = yearNamespace Case year ++ last4Digits now.
Proof.
  unfold fallbackIdentifier, yearNamespace, prefixOf.
  now rewrite !append_assoc.
Qed.

(** C8, on the code.  The cycles of an Invoice never start: an invoice
    that carries no number does not pass validation, its schema
    declaring [invoiceNumber] as required, and validation runs before
    the hook that would allocate the number.  The creation is rejected
    with the world as it was, without a count and without an
    identifier, the invoice is left as it came, and a run of creations
    that begins with it ends there. *)
Theorem invoice_without_number_is_rejected
  (i : InvoiceDoc) (rest : list Entity) (w : World) :
  not_ (invoiceNumber i) = true ->
  create (AnInvoice i) w = (Throw ValidationError, w)
  /\ afterSave (AnInvoice i) w = AnInvoice i
  /\ createAll (AnInvoice i :: rest) w = (Throw ValidationError, w).
Proof.
  intro Blank.
  assert (validates (AnInvoice i) = false) as V
      by (simpl; unfold required; now rewrite Blank).
  split; [now apply create_fail|]. split.
  - unfold afterSave. now rewrite beforeWrite_fail.
  - simpl. unfold bind. now rewrite create_fail.
Qed.

Lemma invoice_without_number_is_rejected_witness :
  create (AnInvoice blankInvoice) world0 = (Throw ValidationError, world0)
  /\ afterSave (AnInvoice blankInvoice) world0 = AnInvoice blankInvoice
  /\ createAll [AnInvoice blankInvoice; AnInvoice blankInvoice;
                AnInvoice blankInvoice] world0
     = (Throw ValidationError, world0).
Proof.
  exact (invoice_without_number_is_rejected blankInvoice
           [AnInvoice blankInvoice; AnInvoice blankInvoice] world0 eq_refl).
Defined.

Example three_cases_in_a_row :
  option_map (map identifier)
    (match fst (createAll [ACase blankCase; ACase blankCase; ACase blankCase]
                          world0) with
     | Ok es' => Some es'
     | Throw _ => None
     end)
  = Some [Some "CASE-2024-0001"; Some "CASE-2024-0002"; Some "CASE-2024-0003"].
Proof. vm_compute. reflexivity. Qed.

(** With validation out of the way the hook of an Invoice counts as that
    of a Case does. *)
Example three_invoice_hooks_in_a_row :
  map (fun n => fst (pre_save (AnInvoice blankInvoice)
                       (worldWith [] (invoicesOf2024 n))))
      [0; 1; 2]%N
  = map (fun id => Ok (AnInvoice (mkInvoice true (Some id) 0%float []
                                            unmodified true)))
        ["INV-2024-0001"; "INV-2024-0002"; "INV-2024-0003"].
Proof. vm_compute. reflexivity. Qed.

(** C10. The identifier that the fallback path gives a Case lies in the
    namespace of its year: the pattern of the count query of that year
    matches it.  Once the collection holds it, the count that a later
    allocation of that year observes is one more than the count of the
    other documents, and so is the sequence which that allocation
    computes. *)
Theorem fallback_case_is_counted (c : CaseDoc) (w : World) :
  case_isNew c = true ->
  not_ (caseNumber c) = true ->
  online w = false ->
  let year := fullYear (clock w (S (reads w))) in
  exists c' w' id,
    pre_save (ACase c) w = (Ok (ACase c'), w')
    /\ caseNumber c' = Some id
    /\ fieldMatches (yearPattern Case year) (Some id) = true
    /\ forall (c2 : CaseDoc) (w2 : World) (before after : list CaseDoc)
              (d : CaseDoc),
         cases w2 = (before ++ d :: after)%list ->
         caseNumber d = Some id ->
         case_isNew c2 = true -> not_ (caseNumber c2) = true ->
         online w2 = true ->
         fullYear (clock w2 (reads w2)) = year ->
         let others :=
           countMatching (yearPattern Case year)
                         (map caseNumber (before ++ after)) in
         countOf Case year w2 = (others + 1)%Z
         /\ exists c2' w2',
              pre_save (ACase c2) w2 = (Ok (ACase c2'), w2')
              /\ caseNumber c2'
                 = Some (formatIdentifier Case year (others + 2)).
Proof.
  intros New Blank Down year.
  assert (wantsIdentifier (ACase c) = true) as G
      by (simpl; now rewrite New, Blank).
  destruct (pre_save_fallback (ACase c) w G Down)
    as (e' & w' & pre & Run & _ & _ & Id & K & _).
  destruct e' as [c'|i]; [|discriminate K].
  eexists c', w', _. split; [exact Run|]. split; [exact Id|].
  assert (test (yearPattern Case year)
               (fallbackIdentifier Case year
                  (epochMillis (clock w (S (S (reads w)))))) = true) as T
      by (rewrite fallbackIdentifier_split; apply prefix_append).
  split; [exact T|].
  intros c2 w2 before after d Col Num New2 Blank2 Up2 Year2 others.
  assert (countOf Case year w2 = (others + 1)%Z) as Count.
  { unfold countOf, others. simpl numbers. rewrite Col, !map_app. simpl map.
    rewrite Num.
    change (?x :: map caseNumber after)
      with ([x] ++ map caseNumber after)%list.
    rewrite !countMatching_app, countMatching_one by exact T. lia. }
  split; [exact Count|].
  assert (wantsIdentifier (ACase c2) = true) as G2
      by (simpl; now rewrite New2, Blank2).
  destruct (pre_save_happy (ACase c2) w2 G2 Up2)
    as (e2 & pre2 & Run2 & _ & Id2 & K2 & _).
  destruct e2 as [c2'|i]; [|discriminate K2].
  cbv zeta in Id2. simpl kindOf in Id2. rewrite Year2, Count in Id2.
  eexists c2', _. split; [exact Run2|].
  simpl in Id2. rewrite Id2. do 2 f_equal. lia.
Qed.

Lemma fallback_case_is_counted_witness :
  exists c' w' id,
    pre_save (ACase blankCase) (outage world0) = (Ok (ACase c'), w')
    /\ caseNumber c' = Some id
    /\ fieldMatches (yearPattern Case 2024) (Some id) = true
    /\ forall (c2 : CaseDoc) (w2 : World) (before after : list CaseDoc)
              (d : CaseDoc),
         cases w2 = (before ++ d :: after)%list ->
         caseNumber d = Some id ->
         case_isNew c2 = true -> not_ (caseNumber c2) = true ->
         online w2 = true ->
         fullYear (clock w2 (reads w2)) = 2024%Z ->
         let others :=
           countMatching (yearPattern Case 2024)
                         (map caseNumber (before ++ after)) in
         countOf Case 2024 w2 = (others + 1)%Z
         /\ exists c2' w2',
              pre_save (ACase c2) w2 = (Ok (ACase c2'), w2')
              /\ caseNumber c2'
                 = Some (formatIdentifier Case 2024 (others + 2)).
Proof.
  exact (fallback_case_is_counted blankCase (outage world0)
           eq_refl eq_refl eq_refl).
Defined.

(** A Case created during an outage takes a place in the count: the
    next Case of the year is the second, not the first. *)
Example case_after_a_fallback :
  option_map (map identifier)
    (match fst (createAll [ACase blankCase; ACase blankCase]
                          (outage world0)) with
     | Ok es' => Some es'
     | Throw _ => None
     end)
  = Some [Some "CASE-2024-1234"; Some "CASE-2024-0002"].
Proof. vm_compute. reflexivity. Qed.

(** * Further properties of the models *)

(** ** Derived amounts *)


Example quarter_hour_at_240 :
  fst (timeEntry_pre_save
         (mkTimeEntry 0.25%float 240%float 999%float
                      (fun path => String.eqb path "hours"))
         world0)
  = Ok (mkTimeEntry 0.25%float 240%float 60%float
                    (fun path => String.eqb path "hours")).
Proof. vm_compute. reflexivity. Qed.

Section Billed.



End Billed.



(** The save of that invoice is accepted. *)
Example invoice_of_451_saved :
  fst (create (AnInvoice (mkInvoice true (Some "INV-2024-0007") 12345%float
                            [requested 2 150.5; requested 0.5 300]
                            (fun _ => true) true))
              world0)
  = Ok (AnInvoice (mkInvoice false (Some "INV-2024-0007") 451%float
                     [mkItem 2 150.5 301 (fun _ => true);
                      mkItem 0.5 300 150 (fun _ => true)]
                     (fun _ => false) true)).
Proof. vm_compute. reflexivity. Qed.

Example invoice_of_451 :
  billed [requested 2 150.5; requested 0.5 300] = 451%float.
Proof. vm_compute. reflexivity. Qed.

(** ** Years do not mix *)

Section Years.

Lemma prefix_cons (c d : ascii) (s t : string) :
  String.prefix (String c s) (String d t)
  = if ascii_dec c d then String.prefix s t else false.
Proof. reflexivity. Qed.

Lemma prefix_cancel (p a b : string) :
  String.prefix (p ++ a) (p ++ b) = String.prefix a b.
Proof.
  induction p as [|c p IH]; [reflexivity|].
  change (String c p ++ a) with (String c (p ++ a)).
  change (String c p ++ b) with (String c (p ++ b)).
  rewrite prefix_cons.
  destruct (ascii_dec c c) as [_|ne]; [exact IH | now elim ne].
Qed.

(** Of two runs of digits that a hyphen ends, one is a prefix of the
    other only if they are the same. *)
Lemma prefix_digits (a b r : string) :
  Str.allDigits a = true -> Str.allDigits b = true ->
  String.prefix (a ++ "-") (b ++ String "-" r) = true -> a = b.
Proof.
  revert b. induction a as [|c a IH]; intros [|d b] Da Db H.
  - reflexivity.
  - exfalso. simpl in Db. apply andb_true_iff in Db as [Dd _].
    change ("" ++ "-") with (String "-" "") in H.
    change (String d b ++ String "-" r) with (String d (b ++ String "-" r)) in H.
    rewrite prefix_cons in H.
    destruct (ascii_dec "-" d) as [<-|_]; [vm_compute in Dd|]; discriminate.
  - exfalso. simpl in Da. apply andb_true_iff in Da as [Dc _].
    change (String c a ++ "-") with (String c (a ++ "-")) in H.
    change ("" ++ String "-" r) with (String "-" r) in H.
    rewrite prefix_cons in H.
    destruct (ascii_dec c "-") as [->|_]; [vm_compute in Dc|]; discriminate.
  - simpl in Da, Db.
    apply andb_true_iff in Da as [_ Da]. apply andb_true_iff in Db as [_ Db].
    change (String c a ++ "-") with (String c (a ++ "-")) in H.
    change (String d b ++ String "-" r) with (String d (b ++ String "-" r)) in H.
    rewrite prefix_cons in H.
    destruct (ascii_dec c d) as [->|_]; [|discriminate].
    f_equal. now apply IH.
Qed.

Lemma decimal_inj (a b : N) : Num.decimal a = Num.decimal b -> a = b.
Proof.
  intro H. rewrite <- (decimal_value a), <- (decimal_value b). now rewrite H.
Qed.

(** The rendering of a number starts with a digit. *)
Lemma decimal_head (n : N) :
  exists c s, Num.decimal n = String c s /\ Str.isDigit c = true.
Proof.
  destruct (N.eq_dec n 0) as [->|Pos]; [now exists "0"%char, ""|].
  pose proof (decimal_allDigits n) as D.
  pose proof (decimal_length_gt 0 n) as L.
  destruct (Num.decimal n) as [|c s].
  - simpl in L. assert (0 < 0)%nat by (apply L; lia). lia.
  - simpl in D. apply andb_true_iff in D as [Dc _]. now exists c, s.
Qed.

(** The rendering of a year, followed by a hyphen, is a prefix of that
    of another only if the years are the same. *)
Lemma year_prefix (y1 y2 : Z) (r : string) :
  String.prefix (Num.toString y1 ++ "-") (Num.toString y2 ++ String "-" r)
  = true ->
  y1 = y2.
Proof.
  assert (forall p, Num.toString (Zneg p)
                    = String "-" (Num.decimal (Npos p))) as Neg
      by reflexivity.
  assert (forall s t, String "-" s ++ t = String "-" (s ++ t)) as App
      by reflexivity.
  intro H.
  destruct (Z.leb_spec 0 y1) as [P1|N1], (Z.leb_spec 0 y2) as [P2|N2].
  - rewrite !toString_nonneg in H by assumption.
    apply prefix_digits in H; auto using decimal_allDigits.
    apply decimal_inj in H. lia.
  - exfalso. destruct y2 as [|p|p]; try lia.
    rewrite toString_nonneg, Neg, App in H by assumption.
    destruct (decimal_head (Z.to_N y1)) as (c & s & E & Dc). rewrite E in H.
    change (String c s ++ "-") with (String c (s ++ "-")) in H.
    rewrite prefix_cons in H.
    destruct (ascii_dec c "-") as [->|_]; [vm_compute in Dc|]; discriminate.
  - exfalso. destruct y1 as [|p|p]; try lia.
    rewrite (toString_nonneg y2), Neg, App in H by assumption.
    destruct (decimal_head (Z.to_N y2)) as (d & s & E & Dd). rewrite E in H.
    change (String d s ++ String "-" r) with (String d (s ++ String "-" r)) in H.
    rewrite prefix_cons in H.
    destruct (ascii_dec "-" d) as [<-|_]; [vm_compute in Dd|]; discriminate.
  - destruct y1 as [|p|p], y2 as [|q|q]; try lia.
    rewrite !Neg, !App, prefix_cons in H.
    destruct (ascii_dec "-" "-") as [_|ne]; [|now elim ne].
    apply prefix_digits in H; auto using decimal_allDigits.
    apply decimal_inj in H. congruence.
Qed.

(** The pattern of one year matches nothing in the namespace of
    another. *)
Lemma other_year_not_matched (kind : Kind) (y1 y2 : Z) (rest : string) :
  y1 <> y2 ->
  test (yearPattern kind y1) (yearNamespace kind y2 ++ rest) = false.
Proof.
  intro Ne. unfold yearPattern, test, yearNamespace.
  rewrite !append_assoc, !prefix_cancel.
  destruct (String.prefix _ _) eqn:H; [|reflexivity].
  elim Ne. exact (year_prefix y1 y2 rest H).
Qed.

Lemma countMatching_none (re : RegExp) (column : list (option string)) :
  (forall x, In x column -> fieldMatches re x = false) ->
  countMatching re column = 0%Z.
Proof.
  intro H. unfold countMatching.
  induction column as [|x l IH]; [reflexivity|]. simpl.
  rewrite (H x (or_introl eq_refl)). apply IH.
  intros y Hy. apply H. now right.
Qed.

End Years.

(** X3. The numbering starts again with every year: when the
    identifiers that the collection holds all lie in the namespaces of
    other years, whatever follows the namespace, a new entity without
    identifier is given the identifier of the clock's year with
    sequence 1. *)
Theorem numbering_restarts_each_year
  (kind : Kind) (year : Z) (e : Entity) (w : World) :
  kindOf e = kind ->
  isNew e = true -> not_ (identifier e) = true -> online w = true ->
  fullYear (clock w (reads w)) = year ->
  (forall id, In (Some id) (numbers kind w) ->
              exists y' rest, y' <> year /\ id = yearNamespace kind y' ++ rest) ->
  countOf kind year w = 0%Z
  /\ exists e' w',
       pre_save e w = (Ok e', w')
       /\ identifier e' = Some (formatIdentifier kind year 1).
Proof.
  intros K New Blank Up Year Others.
  assert (countOf kind year w = 0%Z) as Zero.
  { apply countMatching_none. intros [id|] H; [|reflexivity].
    destruct (Others id H) as (y' & rest & Ne & ->). simpl.
    apply other_year_not_matched. congruence. }
  split; [exact Zero|].
  destruct (pre_save_happy e w (new_without_identifier e New Blank) Up)
    as (e' & pre & Run & _ & Id & _).
  cbv zeta in Id. rewrite K, Year, Zero in Id.
  eexists e', _. split; [exact Run | exact Id].
Qed.

Lemma numbering_restarts_each_year_witness :
  countOf Case 2025
    (mkWorld (fun _ => at2025) 0 (fun _ => true) 0 (casesOf2024 2) [] [])
  = 0%Z
  /\ exists e' w',
       pre_save (ACase blankCase)
         (mkWorld (fun _ => at2025) 0 (fun _ => true) 0 (casesOf2024 2) [] [])
       = (Ok e', w')
       /\ identifier e' = Some (formatIdentifier Case 2025 1).
Proof.
  apply (numbering_restarts_each_year Case 2025 (ACase blankCase)
           (mkWorld (fun _ => at2025) 0 (fun _ => true) 0 (casesOf2024 2)
                    [] []));
    try reflexivity.
  intros id [H | [H | []]]; injection H as <-.
  - exists 2024%Z, "0001". split; [discriminate | reflexivity].
  - exists 2024%Z, "0002". split; [discriminate | reflexivity].
Defined.

Example first_case_of_2025 :
  fst (pre_save (ACase blankCase)
         (mkWorld (fun _ => at2025) 0 (fun _ => true) 0 (casesOf2024 2) [] []))
  = Ok (ACase (mkCase true (Some "CASE-2025-0001") "Estate of A" true)).
Proof. vm_compute. reflexivity. Qed.

(** ** What the middleware touches *)

(** X4. The save middleware writes nothing: it returns with both
    collections as they were, after at most one request to the store
    and at most three readings of the clock (none of either when no
    identifier is wanted); of the entity it keeps the kind and the
    newness, and of a Case the title. *)
Theorem hooks_only_read (e : Entity) (w : World) :
  exists e' w',
    pre_save e w = (Ok e', w')
    /\ cases w' = cases w /\ invoices w' = invoices w
    /\ (requests w <= requests w' <= S (requests w))%nat
    /\ (reads w <= reads w' <= reads w + 3)%nat
    /\ (wantsIdentifier e = false ->
        requests w' = requests w /\ reads w' = reads w)
    /\ kindOf e' = kindOf e /\ isNew e' = isNew e
    /\ (forall c c', e = ACase c -> e' = ACase c' -> title c' = title c).
Proof.
  destruct e as [c|i].
  - unfold pre_save, bind.
    destruct (case_isNew c && not_ (caseNumber c)) eqn:G;
      [destruct (online w) eqn:Up|].
    + rewrite case_pre_save_happy by assumption.
      eexists _, _. split; [reflexivity|]. simpl. rewrite G.
      repeat split; try lia; try discriminate.
      intros c0 c' [= <-] [= <-]. reflexivity.
    + rewrite case_pre_save_fallback by assumption.
      eexists _, _. split; [reflexivity|]. simpl. rewrite G.
      repeat split; try lia; try discriminate.
      intros c0 c' [= <-] [= <-]. reflexivity.
    + rewrite case_pre_save_skip by assumption.
      eexists _, _. split; [reflexivity|]. simpl.
      repeat split; try lia.
      intros c0 c' [= <-] [= <-]. reflexivity.
  - rewrite pre_save_invoice_eq. unfold bind.
    set (i1 := totalSaved _). set (w1 := logged _ w).
    assert (invoiceNumber i1 = invoiceNumber i) as Num1
        by apply invoiceNumber_totalSaved.
    assert (invoice_isNew i1 = invoice_isNew i) as New1
        by apply invoice_isNew_totalSaved.
    destruct (not_ (invoiceNumber i)) eqn:G; [destruct (online w) eqn:Up|].
    + rewrite invoice_number_happy; [| now rewrite Num1 | exact Up].
      eexists _, _. split; [reflexivity|]. simpl. rewrite G, New1.
      repeat split; try lia; try discriminate.
    + rewrite invoice_number_fallback; [| now rewrite Num1 | exact Up].
      eexists _, _. split; [reflexivity|]. simpl. rewrite G, New1.
      repeat split; try lia; try discriminate.
    + rewrite invoice_number_skip by now rewrite Num1.
      eexists _, _. split; [reflexivity|]. simpl. rewrite New1.
      repeat split; try lia; try discriminate.
Qed.

(** ** The unique index *)

Section UniqueIndex.

Lemma sameKey_refl (a : option string) : sameKey a a = true.
Proof. destruct a as [x|]; simpl; [apply String.eqb_refl | reflexivity]. Qed.

Lemma numbers_asked (kind : Kind) (w : World) :
  numbers kind (asked w) = numbers kind w.
Proof. now destruct kind. Qed.

(** What a write leaves behind: the collections as they were when it is
    rejected, and one more identifier, which the column did not hold,
    when it is accepted. *)
Lemma insertOne_outcome (e : Entity) (w : World) :
  (exists err, insertOne e w = (Throw err, asked w))
  \/ (insertOne e w = (Ok (persisted e), store (persisted e) (asked w))
      /\ ~ In (identifier e) (numbers (kindOf e) w)).
Proof.
  unfold insertOne. destruct (online w); simpl; [|left; now eexists].
  destruct (existsb _ _) eqn:E; [left; now eexists|]. right.
  split; [reflexivity|]. intro H.
  assert (existsb (sameKey (identifier e)) (numbers (kindOf e) w) = true)
    as T by (apply existsb_exists; eexists; split; [exact H | apply sameKey_refl]).
  congruence.
Qed.

End UniqueIndex.

(** ** The fallback of a Case, read as a sequence *)

Section FixedWidth.

Local Open Scope N_scope.

Lemma pow10_succ (n : nat) : 10 ^ N.of_nat (S n) = 10 * 10 ^ N.of_nat n.
Proof. now rewrite Nat2N.inj_succ, N.pow_succ_r'. Qed.

Lemma valueFrom_linear (s : string) (acc : N) :
  Str.valueFrom acc s
  = acc * 10 ^ N.of_nat (String.length s) + Str.valueFrom 0 s.
Proof.
  revert acc. induction s as [|c r IH]; intro acc.
  - simpl. lia.
  - cbn [Str.valueFrom String.length]. rewrite pow10_succ.
    rewrite (IH (10 * acc + _)), (IH (10 * 0 + _)).
    generalize (10 ^ N.of_nat (String.length r)) (N_of_ascii c - 48)
               (Str.valueFrom 0 r).
    intros; ring.
Qed.

Lemma digit_value (c : ascii) :
  Str.isDigit c = true -> N_of_ascii c - 48 <= 9 /\ 48 <= N_of_ascii c.
Proof.
  unfold Str.isDigit. intro H. apply andb_true_iff in H as [L U].
  apply N.leb_le in L, U. lia.
Qed.

Lemma value_bound (s : string) :
  Str.allDigits s = true ->
  Str.valueFrom 0 s < 10 ^ N.of_nat (String.length s).
Proof.
  induction s as [|c r IH]; intro D.
  - simpl. lia.
  - simpl in D. apply andb_true_iff in D as [Dc Dr].
    cbn [Str.valueFrom String.length]. rewrite pow10_succ, valueFrom_linear.
    specialize (IH Dr). destruct (digit_value c Dc) as [U _]. nia.
Qed.

Lemma base_split (P a b x y : N) :
  x < P -> y < P -> a * P + x = b * P + y -> a = b /\ x = y.
Proof.
  intros Hx Hy E. destruct (N.lt_trichotomy a b) as [H|[H|H]].
  - exfalso. assert ((a + 1) * P <= b * P) by (apply N.mul_le_mono_r; lia). lia.
  - subst b. split; [reflexivity | lia].
  - exfalso. assert ((b + 1) * P <= a * P) by (apply N.mul_le_mono_r; lia). lia.
Qed.

(** Two runs of digits of one length that denote one number are one
    string. *)
Lemma digits_eq (s t : string) :
  String.length s = String.length t ->
  Str.allDigits s = true -> Str.allDigits t = true ->
  Str.value s = Str.value t -> s = t.
Proof.
  unfold Str.value. revert t.
  induction s as [|c s IH]; intros [|d t] L Ds Dt V; try discriminate L.
  - reflexivity.
  - simpl in Ds, Dt, L. injection L as L.
    apply andb_true_iff in Ds as [Dc Ds]. apply andb_true_iff in Dt as [Dd Dt].
    cbn [Str.valueFrom] in V.
    rewrite (valueFrom_linear s), (valueFrom_linear t), L in V.
    pose proof (value_bound s Ds) as Bs. pose proof (value_bound t Dt) as Bt.
    rewrite L in Bs.
    destruct (digit_value c Dc) as [Uc Lc], (digit_value d Dd) as [Ud Ld].
    assert (N_of_ascii c - 48 = N_of_ascii d - 48
            /\ Str.valueFrom 0 s = Str.valueFrom 0 t) as [Ec Es].
    { apply (base_split (10 ^ N.of_nat (String.length t))); auto. }
    f_equal.
    + rewrite <- (ascii_N_embedding c), <- (ascii_N_embedding d).
      f_equal. lia.
    + now apply IH.
Qed.

End FixedWidth.

Section FallbackSequence.

Lemma Some_inj {A} (a b : A) : Some a = Some b -> a = b.
Proof. intro H. now injection H. Qed.

(** From the first second on, the slice of the timestamp is the padded
    rendering of the timestamp modulo ten thousand. *)
Lemma last4_is_pad4 (now : Z) :
  (1000 <= now)%Z ->
  last4Digits now = Str.padStart 4 "0" (Num.toString (now mod 10000)).
Proof.
  intro H.
  assert (0 <= now mod 10000 < 10000)%Z as B by (apply Z.mod_pos_bound; lia).
  destruct (last4Digits_spec now H) as (L & D & V).
  destruct (sequence_suffix (now mod 10000)%Z (proj1 B)) as (D' & V' & L' & _).
  apply digits_eq; auto.
  - rewrite L. symmetry. apply L'. lia.
  - lia.
Qed.

Lemma fallback_is_format (year now : Z) :
  (1000 <= now)%Z ->
  fallbackIdentifier Case year now
  = formatIdentifier Case year (now mod 10000).
Proof.
  intro H. rewrite fallbackIdentifier_split, formatIdentifier_split.
  now rewrite last4_is_pad4.
Qed.

End FallbackSequence.

(** X6. The identifier that the fallback path gives a Case is, for a
    timestamp of at least four digits, the identifier that the
    sequential path gives the sequence "timestamp modulo 10000" of the
    same year (0000 included): nothing in the identifier tells the two
    paths apart. *)
Theorem case_fallback_is_a_sequence (c : CaseDoc) (w : World) :
  case_isNew c = true ->
  not_ (caseNumber c) = true ->
  online w = false ->
  let year := fullYear (clock w (S (reads w))) in
  let now := epochMillis (clock w (S (S (reads w)))) in
  (1000 <= now)%Z ->
  exists c' w',
    pre_save (ACase c) w = (Ok (ACase c'), w')
    /\ caseNumber c' = Some (formatIdentifier Case year (now mod 10000))
    /\ option_map (sequenceOf Case year) (caseNumber c')
       = Some (Z.to_N (now mod 10000)).
Proof.
  intros New Blank Down year now Late.
  assert (wantsIdentifier (ACase c) = true) as G
      by (simpl; now rewrite New, Blank).
  destruct (pre_save_fallback (ACase c) w G Down)
    as (e' & w' & pre & Run & _ & _ & Id & K & _).
  destruct e' as [c'|i]; [|discriminate K].
  cbn [kindOf identifier] in Id.
  rewrite fallback_is_format in Id by exact Late.
  exists c', w'. split; [exact Run|]. split; [exact Id|].
  rewrite Id. simpl. f_equal. apply sequenceOf_format.
  apply Z.mod_pos_bound. lia.
Qed.

Lemma case_fallback_is_a_sequence_witness :
  exists c' w',
    pre_save (ACase blankCase) (outage world0) = (Ok (ACase c'), w')
    /\ caseNumber c'
       = Some (formatIdentifier Case 2024 (1718000001234 mod 10000))
    /\ option_map (sequenceOf Case 2024) (caseNumber c')
       = Some (Z.to_N (1718000001234 mod 10000)).
Proof.
  apply (case_fallback_is_a_sequence blankCase (outage world0)
           eq_refl eq_refl eq_refl).
  simpl. lia.
Defined.

(** X7. Two Cases that take the fallback path in the same year, with
    timestamps of at least four digits, get the same identifier exactly
    when their timestamps are congruent modulo 10000, that is, when
    they are a whole number of ten-second periods apart. *)
Theorem case_fallback_collides_iff (c1 c2 : CaseDoc) (w1 w2 : World) :
  case_isNew c1 = true -> not_ (caseNumber c1) = true -> online w1 = false ->
  case_isNew c2 = true -> not_ (caseNumber c2) = true -> online w2 = false ->
  fullYear (clock w1 (S (reads w1))) = fullYear (clock w2 (S (reads w2))) ->
  let now1 := epochMillis (clock w1 (S (S (reads w1)))) in
  let now2 := epochMillis (clock w2 (S (S (reads w2)))) in
  (1000 <= now1)%Z -> (1000 <= now2)%Z ->
  exists c1' w1' c2' w2',
    pre_save (ACase c1) w1 = (Ok (ACase c1'), w1')
    /\ pre_save (ACase c2) w2 = (Ok (ACase c2'), w2')
    /\ (caseNumber c1' = caseNumber c2'
        <-> (now1 mod 10000 = now2 mod 10000)%Z).
Proof.
  intros New1 Blank1 Down1 New2 Blank2 Down2 Year now1 now2 Late1 Late2.
  assert (wantsIdentifier (ACase c1) = true) as G1
      by (simpl; now rewrite New1, Blank1).
  assert (wantsIdentifier (ACase c2) = true) as G2
      by (simpl; now rewrite New2, Blank2).
  destruct (pre_save_fallback (ACase c1) w1 G1 Down1)
    as (e1 & w1' & pre1 & Run1 & _ & _ & Id1 & K1 & _).
  destruct (pre_save_fallback (ACase c2) w2 G2 Down2)
    as (e2 & w2' & pre2 & Run2 & _ & _ & Id2 & K2 & _).
  destruct e1 as [c1'|i]; [|discriminate K1].
  destruct e2 as [c2'|i]; [|discriminate K2].
  cbn [kindOf identifier] in Id1, Id2.
  rewrite fallback_is_format in Id1 by exact Late1.
  rewrite fallback_is_format in Id2 by exact Late2.
  rewrite <- Year in Id2.
  exists c1', w1', c2', w2'. split; [exact Run1|]. split; [exact Run2|].
  rewrite Id1, Id2. split.
  - intro E.
    apply (formatIdentifier_inj Case (fullYear (clock w1 (S (reads w1)))));
      [apply Z.mod_pos_bound; lia | apply Z.mod_pos_bound; lia |].
    exact (Some_inj _ _ E).
  - intro E. subst now1 now2. now rewrite E.
Qed.

Lemma case_fallback_collides_iff_witness :
  exists c1' w1' c2' w2',
    pre_save (ACase blankCase) (outage world0) = (Ok (ACase c1'), w1')
    /\ pre_save (ACase (mkCase true None "Estate of B" true))
                (outage (mkWorld (fun _ => tenSecondsLater) 0 (fun _ => true)
                                 0 [] [] []))
       = (Ok (ACase c2'), w2')
    /\ (caseNumber c1' = caseNumber c2'
        <-> (1718000001234 mod 10000 = 1718000011234 mod 10000)%Z).
Proof.
  apply (case_fallback_collides_iff blankCase
           (mkCase true None "Estate of B" true) (outage world0)
           (outage (mkWorld (fun _ => tenSecondsLater) 0 (fun _ => true)
                            0 [] [] [])));
    try reflexivity; simpl; lia.
Defined.

(** ** A number that is taken *)

Section Taken.



End Taken.



(** A Case created during an outage at a timestamp that ends in 0003
    takes the third number; the next Case is the second, and from then
    on no Case can be created. *)
Example stuck_after_a_fallback :
  map (fun r => match r with
                | Ok e' => identifier e'
                | Throw _ => None
                end)
      (attempts [ACase blankCase; ACase blankCase; ACase blankCase;
                 ACase blankCase]
                (outage (mkWorld (fun _ => endsIn0003) 0 (fun _ => true) 0
                                 [] [] [])))
  = [Some "CASE-2024-0003"; Some "CASE-2024-0002"; None; None].
Proof. vm_compute. reflexivity. Qed.

(** ** Cases created one after the other *)

(** X18. New Cases without number whose documents pass validation,
    created one after the other, each written before the next one
    starts, in a year of which the collection holds no case number and
    with a store that answers: every creation succeeds, and the k-th
    Case gets the case number of the year with sequence k, so that the
    sequences are 1, 2, ..., n in the order of creation. *)
Theorem sequential_case_creation_counts_up
  (year : Z) (cs : list CaseDoc) (w : World) :
  Forall (fun c => case_isNew c = true /\ not_ (caseNumber c) = true
                   /\ validates (ACase c) = true) cs ->
  (forall k, answers w k = true) ->
  (forall k, fullYear (clock w k) = year) ->
  countOf Case year w = 0%Z ->
  exists es' w',
    createAll (map ACase cs) w = (Ok es', w')
    /\ map identifier es'
       = map (fun k => Some (formatIdentifier Case year (Z.of_nat k)))
             (seq 1 (List.length cs))
    /\ map (option_map (sequenceOf Case year)) (map identifier es')
       = map (fun k => Some (N.of_nat k)) (seq 1 (List.length cs)).
Proof.
  intros Cs Up Year Empty.
  destruct (createAll_from Case year (map ACase cs)) with (m := 0) (w := w)
    as (es' & w' & Run & Ids); auto.
  - apply Forall_map. eapply Forall_impl; [|exact Cs].
    intros c (New & Blank & V). repeat split; assumption.
  - now apply upTo_zero.
  - rewrite length_map in Ids.
    exists es', w'. split; [exact Run|]. split; [exact Ids|].
    rewrite Ids. apply sequences_of_formats.
Qed.

Lemma sequential_case_creation_counts_up_witness :
  exists es' w',
    createAll (map ACase [blankCase; mkCase true None "Estate of B" true;
                          mkCase true (Some "") "Estate of C" true])
              (worldWith [mkCase false (Some "CASE-2023-0001") "on file" true]
                         [])
    = (Ok es', w')
    /\ map identifier es'
       = map (fun k => Some (formatIdentifier Case 2024 (Z.of_nat k)))
             (seq 1 3)
    /\ map (option_map (sequenceOf Case 2024)) (map identifier es')
       = map (fun k => Some (N.of_nat k)) (seq 1 3).
Proof.
  apply (sequential_case_creation_counts_up 2024
           [blankCase; mkCase true None "Estate of B" true;
            mkCase true (Some "") "Estate of C" true]
           (worldWith [mkCase false (Some "CASE-2023-0001") "on file" true]
                      [])).
  - repeat constructor.
  - reflexivity.
  - reflexivity.
  - reflexivity.
Defined.

(** * The routes *)

(** ** Who sees what *)

Section Listings.

Lemma answered_up {A} (a : A) (w : World) :
  online w = true -> answered a w = (Ok a, asked w).
Proof. intro Up. unfold answered. now rewrite Up. Qed.

Lemma answered_down {A} (a : A) (w : World) :
  online w = false -> answered a w = (Throw StorageError, asked w).
Proof. intro Down. unfold answered. now rewrite Down. Qed.

Lemma truthy_Some (v : option string) :
  truthy v = true -> exists s, v = Some s /\ s <> "".
Proof.
  destruct v as [[|c s]|]; try discriminate. intros _.
  eexists. split; [reflexivity | discriminate].
Qed.

End Listings.

(** X9. In the listing of cases a filter on the assigned lawyer that
    comes from the query needs the Admin role: for every other user the
    filter names the user's own id when the role is Lawyer and no lawyer
    at all otherwise, whatever the query says. *)
Theorem assigned_lawyer_filter_needs_admin
  (clients : list ClientRecord) (user : ReqUser) (query : CasesQuery)
  (w w' : World) (f : CaseFilter) :
  role user <> "Admin" ->
  get_cases clients user query w = (Ok (FindWith f), w') ->
  filter_assignedLawyerId f
  = if String.eqb (role user) "Lawyer" then Some (user_id user) else None.
Proof.
  intros NotAdmin Run.
  assert (String.eqb (role user) "Admin" = false) as NA
      by now apply String.eqb_neq.
  unfold get_cases, bind in Run. rewrite NA, andb_false_r in Run.
  destruct (String.eqb (role user) "Client") eqn:C.
  - apply String.eqb_eq in C. rewrite C in *. simpl.
    unfold Client_findOne, answered in Run.
    destruct (online w); [|discriminate Run].
    destruct (find _ clients); [|discriminate Run].
    unfold ret in Run. injection Run as <- _.
    destruct (truthy (q_clientId query)), (truthy (q_status query)),
      (truthy (q_caseType query)); reflexivity.
  - destruct (String.eqb (role user) "Lawyer");
      unfold ret in Run; injection Run as <- _;
      destruct (truthy (q_clientId query)), (truthy (q_status query)),
        (truthy (q_caseType query)); reflexivity.
Qed.

Lemma assigned_lawyer_filter_needs_admin_witness :
  filter_assignedLawyerId
    (mkCaseFilter (Some "c-7") (Some "u-lee") None (Some "Civil"))
  = if String.eqb (role lawyerLee) "Lawyer" then Some (user_id lawyerLee)
    else None.
Proof.
  apply (assigned_lawyer_filter_needs_admin [] lawyerLee
           (mkCasesQuery (Some "c-7") (Some "u-kim") (Some "") (Some "Civil"))
           world0 world0).
  - discriminate.
  - reflexivity.
Defined.

(** X10. For a user of role Client whose client record is found, the
    listing of cases is searched with the query's clientId when the
    query gives one, and with the id of the user's own record only when
    it gives none: the restriction to the own record is set first and
    the query's clientId is written over it.  Without a record the
    handler answers with the empty listing and searches nothing. *)
Theorem client_case_filter_follows_query
  (clients : list ClientRecord) (user : ReqUser) (query : CasesQuery)
  (w : World) :
  role user = "Client" ->
  online w = true ->
  match find (fun c => String.eqb (client_email c) (email user)) clients with
  | None => get_cases clients user query w = (Ok NoData, asked w)
  | Some own =>
      exists f,
        get_cases clients user query w = (Ok (FindWith f), asked w)
        /\ filter_clientId f
           = (if truthy (q_clientId query) then q_clientId query
              else Some (client_id own))
        /\ filter_assignedLawyerId f = None
  end.
Proof.
  intros R Up. unfold get_cases, bind, Client_findOne.
  rewrite R. simpl. rewrite answered_up by exact Up.
  destruct (find _ clients) as [own|]; [|reflexivity].
  eexists. split; [reflexivity|]. rewrite andb_false_r.
  destruct (truthy (q_clientId query)), (truthy (q_status query)),
    (truthy (q_caseType query)); split; reflexivity.
Qed.

Lemma client_case_filter_follows_query_witness :
  exists f,
    get_cases twoClients clientAda (mkCasesQuery (Some "c-1") None None None)
              world0
    = (Ok (FindWith f), asked world0)
    /\ filter_clientId f = Some "c-1"
    /\ filter_assignedLawyerId f = None.
Proof.
  exact (client_case_filter_follows_query twoClients clientAda
           (mkCasesQuery (Some "c-1") None None None) world0
           eq_refl eq_refl).
Defined.

(** X11. In the listing of invoices the query never widens what a Client
    or a Lawyer sees: a Client's search is pinned to the id of the
    client record that carries the user's email (or the listing is
    empty when there is none), a Lawyer's to the ids of the clients
    assigned to that lawyer, whatever clientId the query gives. *)
Theorem invoice_filter_pins_client
  (clients : list ClientRecord) (user : ReqUser) (query : InvoicesQuery)
  (w w' : World) (r : Reply InvoiceFilter) :
  role user = "Client" \/ role user = "Lawyer" ->
  get_invoices clients user query w = (Ok r, w') ->
  match r with
  | NoData =>
      role user = "Client"
      /\ forall c, In c clients -> client_email c <> email user
  | FindWith f =>
      match ifilter_clientId f with
      | Some (Is id) =>
          role user = "Client"
          /\ exists c, In c clients /\ client_email c = email user
                       /\ client_id c = id
      | Some (OneOf ids) =>
          role user = "Lawyer"
          /\ forall id, In id ids ->
               exists c, In c clients /\ client_id c = id
                         /\ client_assignedLawyerId c = Some (user_id user)
      | None => False
      end
  end.
Proof.
  intros R Run. unfold get_invoices, bind, Client_findOne, Client_find in Run.
  destruct R as [R|R]; rewrite R in Run; simpl in Run;
    unfold answered in Run; (destruct (online w); [|discriminate Run]).
  - destruct (find _ clients) as [own|] eqn:F;
      unfold ret in Run; injection Run as <- _.
    + simpl. split; [exact R|]. apply find_some in F as [In_own E].
      apply String.eqb_eq in E. now exists own.
    + split; [exact R|]. intros c Hc E.
      pose proof (find_none _ _ F c Hc) as N. simpl in N.
      apply String.eqb_neq in N. contradiction.
  - unfold ret in Run. injection Run as <- _. simpl.
    split; [exact R|]. intros id Hid.
    apply in_map_iff in Hid as (c & <- & Hc).
    apply filter_In in Hc as [Hc K]. apply sameKey_eq in K.
    now exists c.
Qed.

Lemma invoice_filter_pins_client_witness :
  match FindWith (mkInvoiceFilter (Some (Is "c-2")) (Some "Sent")) with
  | NoData =>
      role clientAda = "Client"
      /\ forall c, In c twoClients -> client_email c <> email clientAda
  | FindWith f =>
      match ifilter_clientId f with
      | Some (Is id) =>
          role clientAda = "Client"
          /\ exists c, In c twoClients /\ client_email c = email clientAda
                       /\ client_id c = id
      | Some (OneOf ids) =>
          role clientAda = "Lawyer"
          /\ forall id, In id ids ->
               exists c, In c twoClients /\ client_id c = id
                         /\ client_assignedLawyerId c
                            = Some (user_id clientAda)
      | None => False
      end
  end.
Proof.
  apply (invoice_filter_pins_client twoClients clientAda
           (mkInvoicesQuery (Some "c-1") (Some "Sent")) world0 (asked world0)).
  - left. reflexivity.
  - reflexivity.
Defined.

(** X12. Time entries of another lawyer are listed for an Admin only:
    the filter always names a lawyer, and it names one other than the
    user only when the user is Admin and the query asks for that
    lawyer. *)
Theorem time_entries_of_others_need_admin
  (user : ReqUser) (query : TimeEntriesQuery) :
  exists id,
    tfilter_lawyerId (get_time_entries user query) = Some id
    /\ (id <> user_id user ->
        role user = "Admin" /\ tq_lawyerId query = Some id)
    /\ (role user <> "Admin" -> id = user_id user).
Proof.
  unfold get_time_entries.
  destruct (truthy (tq_lawyerId query)) eqn:T;
    [destruct (String.eqb (role user) "Admin") eqn:A|]; simpl.
  - destruct (truthy_Some _ T) as (s & E & _). rewrite E.
    exists s. apply String.eqb_eq in A. repeat split; auto. contradiction.
  - exists (user_id user). apply String.eqb_neq in A.
    repeat split; auto; contradiction.
  - exists (user_id user). repeat split; auto; contradiction.
Qed.

(** ** Creating cases *)

Section Saving.

Lemma case_pre_save_title (c c' : CaseDoc) (w w' : World) :
  case_pre_save c w = (Ok c', w') -> title c' = title c.
Proof.
  destruct (case_isNew c && not_ (caseNumber c)) eqn:G;
    [destruct (online w) eqn:Up|].
  - rewrite case_pre_save_happy by assumption. now intros [= <- _].
  - rewrite case_pre_save_fallback by assumption. now intros [= <- _].
  - rewrite case_pre_save_skip by assumption. now intros [= <- _].
Qed.

Lemma or_nonempty (a b : string) : a <> "" -> or_ a b = a.
Proof. destruct a; [intro H; now elim H | reflexivity]. Qed.

Lemma or_empty_r (a : string) : or_ a "" = a.
Proof. now destruct a. Qed.

Lemma case_pre_save_others (c c' : CaseDoc) (w w' : World) :
  case_pre_save c w = (Ok c', w') -> case_others c' = case_others c.
Proof.
  destruct (case_isNew c && not_ (caseNumber c)) eqn:G;
    [destruct (online w) eqn:Up|].
  - rewrite case_pre_save_happy by assumption. now intros [= <- _].
  - rewrite case_pre_save_fallback by assumption. now intros [= <- _].
  - rewrite case_pre_save_skip by assumption. now intros [= <- _].
Qed.

(** The save of a new Case without number: rejected with the
    collections as they were, or accepted, the document having passed
    validation, with the title it came with and a number that is not
    empty, which the collection now holds. *)
Lemma save_case_outcome (t : string) (others : bool) (w : World) :
  (exists err w',
      save_case (mkCase true None t others) w = (Throw err, w')
      /\ cases w' = cases w /\ invoices w' = invoices w)
  \/ (exists n w',
        save_case (mkCase true None t others) w
        = (Ok (mkCase false (Some n) t others), w')
        /\ n <> "" /\ t <> "" /\ others = true
        /\ cases w' = (cases w ++ [mkCase false (Some n) t others])%list
        /\ invoices w' = invoices w).
Proof.
  unfold save_case, bind.
  destruct (validates (ACase (mkCase true None t others))) eqn:V.
  2:{ left. rewrite create_fail by exact V. now exists ValidationError, w. }
  rewrite create_pass by exact V. unfold bind.
  destruct (pre_save_outcome (ACase (mkCase true None t others)) w)
    as (e1 & w1 & evs & Run & _ & (_ & _ & Cs & Is) & K & _ & _ & _ & _ & Given).
  rewrite Run. destruct e1 as [c1|i1]; [|discriminate K].
  assert (title c1 = t /\ case_others c1 = others) as (T & O).
  { unfold pre_save, bind in Run.
    destruct (case_pre_save _ w) as [[c1'|err] w1'] eqn:E; [|discriminate Run].
    injection Run as <- _.
    split; [exact (case_pre_save_title _ _ _ _ E)
           | exact (case_pre_save_others _ _ _ _ E)]. }
  specialize (Given eq_refl). simpl in Given.
  destruct c1 as [new1 [n|] t1 o1]; simpl in T, O, Given; [|discriminate Given].
  subst t1 o1.
  assert (n <> "") as NE by (destruct n; [discriminate Given | discriminate]).
  simpl in V. apply andb_true_iff in V as (Vt & Vo).
  assert (t <> "") as TE by (destruct t; [discriminate Vt | discriminate]).
  destruct (insertOne_outcome (ACase (mkCase new1 (Some n) t others)) w1)
    as [(err & Fail) | (Done & _)].
  - left. rewrite Fail. exists err, (asked w1). repeat split; assumption.
  - right. rewrite Done. simpl. exists n. eexists. split; [reflexivity|].
    simpl. rewrite Cs, Is. repeat split; assumption.
Qed.

(** A lookup by id: the cast, then the request. *)
Lemma Client_findById_eq (cast : string -> option string)
  (clients : list ClientRecord) (id : string) (w : World) :
  Client_findById cast clients id w
  = match cast id with
    | Some oid =>
        answered (find (fun c => String.eqb (client_id c) oid) clients) w
    | None => (Throw CastError, w)
    end.
Proof.
  unfold Client_findById, bind, castObjectId. now destruct (cast id).
Qed.

Lemma User_findById_eq (cast : string -> option string)
  (users : list UserRecord) (id : string) (w : World) :
  User_findById cast users id w
  = match cast id with
    | Some oid =>
        answered (find (fun u => String.eqb (record_id u) oid) users) w
    | None => (Throw CastError, w)
    end.
Proof.
  unfold User_findById, bind, castObjectId. now destruct (cast id).
Qed.

(** The casts of a list of ids: all of them cast and the world is as it
    was, or one of them does not and the cast throws, the world being as
    it was. *)
Lemma castEach_outcome (cast : string -> option string) (ids : list string)
  (w : World) :
  (exists oids, forEach (castObjectId cast) ids w = (Ok oids, w)
                /\ map cast ids = map Some oids)
  \/ (forEach (castObjectId cast) ids w = (Throw CastError, w)
      /\ exists id, In id ids /\ cast id = None).
Proof.
  induction ids as [|id ids IH].
  - left. now exists [].
  - simpl. unfold bind.
    change (castObjectId cast id w)
      with (match cast id with
            | Some oid => (Ok oid, w)
            | None => (Throw CastError, w)
            end).
    destruct (cast id) as [oid|] eqn:C.
    + destruct IH as [(oids & -> & E) | (-> & id' & H' & C')].
      * left. exists (oid :: oids). split; [reflexivity|]. simpl.
        now rewrite E.
      * right. split; [reflexivity|]. exists id'. split; [now right | exact C'].
    + right. split; [reflexivity|]. exists id. split; [now left | exact C].
Qed.

End Saving.

Section CreateRoute.

Variable objectId : nat -> string.

(** What [post_case] does once client, lawyer and assignment have
    passed. *)
Lemma post_case_saving (t : string) (others : bool) (w : World) :
  exists r w',
    tryCatch
      (newDate ;;;
       saved <- save_case (mkCase true None t others) ;;
       answered tt ;;;
       answered tt ;;;
       ret (Created (formatCaseResponse (objectId 0) saved)))
      (fun error => ret (Failure 500 "Server error" [])) w
    = (Ok r, w')
    /\ (r = Failure 500 "Server error" []
        \/ exists n, n <> "" /\ t <> "" /\ others = true
                     /\ r = Created (mkCaseResponse (objectId 0) n t)
                     /\ In (Some n) (numbers Case w')).
Proof.
  unfold tryCatch, bind, newDate.
  destruct (save_case_outcome t others (tick w))
    as [(err & w1 & Run & _) | (n & w1 & Run & NE & TE & O & Cs & _)];
    rewrite Run.
  - eexists _, _. split; [reflexivity | now left].
  - unfold answered.
    destruct (online w1); [|eexists _, _; split; [reflexivity | now left]].
    destruct (online (asked w1));
      [|eexists _, _; split; [reflexivity | now left]].
    eexists _, _. split; [reflexivity|]. right. exists n.
    split; [exact NE|]. split; [exact TE|]. split; [exact O|]. split.
    + unfold ret, formatCaseResponse. simpl.
      now rewrite or_empty_r, or_empty_r.
    + simpl. rewrite Cs, map_app. apply in_or_app. right. now left.
Qed.

End CreateRoute.

(** X13. The route that creates one case always answers.  It answers 201
    only for a request without validation errors whose client id casts
    to the id of a client of the collection, whose assigned lawyer's id
    casts to the id of a user with the role Lawyer or Admin and is the
    id of the user unless the user is Admin, and whose document has
    passed the validation of the schema; the case it reports then has
    the title of the request and a number that is not empty, which the
    collection holds.  Every answer 400 or 403 leaves the collection as
    it was and the clock unread, and a request without validation errors
    whose client id does not cast is answered 500 with the world as it
    was. *)
Theorem post_case_outcome
  (cast : string -> option string) (objectId : nat -> string)
  (clients : list ClientRecord) (users : list UserRecord)
  (user : ReqUser) (errors : list string) (body : CaseData) (w : World) :
  exists r w',
    post_case cast objectId clients users user errors body w = (Ok r, w')
    /\ match r with
       | Created data =>
           errors = []
           /\ (exists c, In c clients
                         /\ cast (cd_clientId body) = Some (client_id c))
           /\ (exists l, In l users
                         /\ cast (cd_assignedLawyerId body)
                            = Some (record_id l)
                         /\ (record_role l = "Lawyer"
                             \/ record_role l = "Admin"))
           /\ (role user = "Admin"
               \/ cd_assignedLawyerId body = user_id user)
           /\ cd_title body <> "" /\ cd_others body = true
           /\ response_title data = cd_title body
           /\ response_caseNumber data <> ""
           /\ In (Some (response_caseNumber data)) (numbers Case w')
       | Failure status _ _ =>
           (status = 400 \/ status = 403 \/ status = 500)
           /\ (status <> 500 -> cases w' = cases w /\ reads w' = reads w)
       end
    /\ (errors = [] -> cast (cd_clientId body) = None ->
        r = Failure 500 "Server error" [] /\ w' = w).
Proof.
  unfold post_case.
  destruct errors as [|err errs].
  2:{ eexists _, _. split; [reflexivity|]. simpl.
      split; [split; [now left | auto] | discriminate]. }
  unfold tryCatch at 1, bind at 1. rewrite Client_findById_eq.
  destruct (cast (cd_clientId body)) as [cid|] eqn:Cc.
  2:{ eexists _, _. split; [reflexivity|]. simpl.
      split; [split; [now right; right | intro H; now elim H] | auto]. }
  unfold answered at 1.
  destruct (online w) eqn:Up1.
  2:{ eexists _, _. split; [reflexivity|]. simpl.
      split; [split; [now right; right | intro H; now elim H] | discriminate]. }
  destruct (find _ clients) as [c|] eqn:Fc.
  2:{ eexists _, _. split; [reflexivity|]. simpl.
      split; [split; [now left | auto] | discriminate]. }
  unfold bind at 1. rewrite User_findById_eq.
  destruct (cast (cd_assignedLawyerId body)) as [lid|] eqn:Cl.
  2:{ eexists _, _. split; [reflexivity|]. simpl.
      split; [split; [now right; right | intro H; now elim H] | discriminate]. }
  unfold answered at 1.
  destruct (online (asked w)) eqn:Up2.
  2:{ eexists _, _. split; [reflexivity|]. simpl.
      split; [split; [now right; right | intro H; now elim H] | discriminate]. }
  destruct (find _ users) as [l|] eqn:Fl.
  2:{ eexists _, _. split; [reflexivity|]. simpl.
      split; [split; [now left | auto] | discriminate]. }
  destruct (negb (String.eqb (record_role l) "Lawyer")
            && negb (String.eqb (record_role l) "Admin")) eqn:Rl.
  { eexists _, _. split; [reflexivity|]. simpl.
    split; [split; [now left | auto] | discriminate]. }
  destruct (negb (String.eqb (role user) "Admin")
            && negb (String.eqb (cd_assignedLawyerId body) (user_id user)))
    eqn:Self.
  { eexists _, _. split; [reflexivity|]. simpl.
    split; [split; [now right; left | auto] | discriminate]. }
  destruct (post_case_saving objectId (cd_title body) (cd_others body)
              (asked (asked w)))
    as (r & w' & Run & Out).
  unfold tryCatch in Run. exists r, w'. split; [exact Run|].
  split; [|discriminate].
  destruct Out as [-> | (n & NE & TE & O & -> & Held)].
  - split; [now right; right | intro H; now elim H].
  - split; [reflexivity|].
    apply find_some in Fc as [Hc Ec]. apply String.eqb_eq in Ec.
    apply find_some in Fl as [Hl El]. apply String.eqb_eq in El.
    split; [exists c; split; [exact Hc | now rewrite Ec]|]. split.
    + exists l. split; [exact Hl|]. split; [now rewrite El|].
      apply andb_false_iff in Rl as [R|R]; apply negb_false_iff in R;
        apply String.eqb_eq in R; auto.
    + split.
      * apply andb_false_iff in Self as [R|R]; apply negb_false_iff in R;
          apply String.eqb_eq in R; auto.
      * repeat split; auto.
Qed.

(** A request whose client id is no [ObjectId] is answered 500; one
    whose document does not pass validation, 500 as well. *)
Example post_case_with_a_malformed_id :
  fst (post_case hex24 rowId firmClients firmUsers counselLee []
         (mkCaseData "Lease dispute" "c-9" idLee true) world0)
  = Ok (Failure 500 "Server error" []).
Proof. vm_compute. reflexivity. Qed.

Example post_case_with_an_upper_case_id :
  fst (post_case hex24 rowId firmClients firmUsers counselLee []
         (mkCaseData "Lease dispute" "650C0000000000000000C001" idLee true)
         world0)
  = Ok (Created (mkCaseResponse "id-0" "CASE-2024-0001" "Lease dispute")).
Proof. vm_compute. reflexivity. Qed.

Example post_case_with_an_invalid_document :
  fst (post_case hex24 rowId firmClients firmUsers counselLee []
         (mkCaseData "Lease dispute" idBob idLee false) world0)
  = Ok (Failure 500 "Server error" []).
Proof. vm_compute. reflexivity. Qed.

Section BulkRoute.

Variable message : Error -> string.
Variable objectId : nat -> string.
Variables (clients : list ClientRecord) (users : list UserRecord).
Variable user : ReqUser.

(** A row is reported once, under its index, and never ends the loop;
    it is accepted only if its client and lawyer are in the maps and the
    assignment is one that the user may make. *)
Lemma bulk_row_outcome
  (clientMap : list (string * ClientRecord))
  (lawyerMap : list (string * UserRecord))
  (i : nat) (row : CaseData) (w : World) :
  exists o w',
    bulk_row message objectId user clientMap lawyerMap i row w = (Ok o, w')
    /\ rowOf o = i
    /\ forall s, o = inl s -> rowAccepted user clientMap lawyerMap row s.
Proof.
  unfold bulk_row, tryCatch.
  destruct (Map_get clientMap (cd_clientId row)) eqn:Mc.
  2:{ eexists _, _. split; [reflexivity|]. split; [reflexivity | discriminate]. }
  destruct (Map_get lawyerMap (cd_assignedLawyerId row)) eqn:Ml.
  2:{ eexists _, _. split; [reflexivity|]. split; [reflexivity | discriminate]. }
  destruct (negb (String.eqb (role user) "Admin")
            && negb (String.eqb (cd_assignedLawyerId row) (user_id user)))
    eqn:Self.
  { eexists _, _. split; [reflexivity|]. split; [reflexivity | discriminate]. }
  unfold bind, newDate.
  destruct (save_case_outcome (cd_title row) (cd_others row) (tick w))
    as [(err & w1 & Run & _) | (n & w1 & Run & NE & _)]; rewrite Run.
  { eexists _, _. split; [reflexivity|]. split; [reflexivity | discriminate]. }
  unfold answered.
  destruct (online w1);
    [|eexists _, _; split; [reflexivity|]; split; [reflexivity | discriminate]].
  destruct (online (asked w1));
    [|eexists _, _; split; [reflexivity|]; split; [reflexivity | discriminate]].
  eexists _, _. split; [reflexivity|]. split; [reflexivity|].
  intros s [= <-]. unfold rowAccepted. simpl.
  rewrite !or_empty_r. repeat split; auto.
  - rewrite Mc. discriminate.
  - rewrite Ml. discriminate.
  - apply andb_false_iff in Self as [R|R]; apply negb_false_iff in R;
      apply String.eqb_eq in R; auto.
Qed.

Lemma successesOf_app (a b : list (SuccessEntry + FailedEntry)) :
  successesOf (a ++ b) = (successesOf a ++ successesOf b)%list.
Proof.
  induction a as [|[s|f] a IH]; simpl; [reflexivity | now rewrite IH | exact IH].
Qed.

Lemma failuresOf_app (a b : list (SuccessEntry + FailedEntry)) :
  failuresOf (a ++ b) = (failuresOf a ++ failuresOf b)%list.
Proof.
  induction a as [|[s|f] a IH]; simpl; [reflexivity | exact IH | now rewrite IH].
Qed.

Lemma outcomes_length (outs : list (SuccessEntry + FailedEntry)) :
  List.length (successesOf outs) + List.length (failuresOf outs)
  = List.length outs.
Proof. induction outs as [|[s|f] outs IH]; simpl; lia. Qed.

(** The loop: the two lists grow by the successes and the failures of
    one list of outcomes, one for each row, in the order of the rows. *)
Lemma bulk_loop_outcome
  (clientMap : list (string * ClientRecord))
  (lawyerMap : list (string * UserRecord))
  (rows : list CaseData) :
  forall (i : nat) (success : list SuccessEntry) (failed : list FailedEntry)
         (w : World),
  exists outs w',
    bulk_loop message objectId user clientMap lawyerMap i rows success failed w
    = (Ok ((success ++ successesOf outs)%list,
           (failed ++ failuresOf outs)%list), w')
    /\ List.length outs = List.length rows
    /\ (forall k o, nth_error outs k = Some o ->
          rowOf o = i + k
          /\ forall s, o = inl s ->
               exists row, nth_error rows k = Some row
                           /\ rowAccepted user clientMap lawyerMap row s).
Proof.
  induction rows as [|row rows IH]; intros i success failed w.
  - exists [], w. simpl. rewrite !app_nil_r. split; [reflexivity|].
    split; [reflexivity|]. intros [|k] o H; discriminate H.
  - destruct (bulk_row_outcome clientMap lawyerMap i row w)
      as (o & w1 & Run & Ix & Acc).
    simpl. unfold bind. rewrite Run.
    destruct o as [s|f].
    + destruct (IH (S i) (success ++ [s])%list failed w1)
        as (outs & w' & Rest & Len & Each).
      exists (inl s :: outs), w'. rewrite Rest. simpl.
      rewrite <- app_assoc. split; [reflexivity|].
      split; [now rewrite Len|].
      intros [|k] o H; simpl in H.
      * injection H as <-. split; [simpl in *; lia|].
        intros s0 E. exists row. split; [reflexivity | now apply Acc].
      * destruct (Each k o H) as (Ix' & Acc'). split; [lia | exact Acc'].
    + destruct (IH (S i) success (failed ++ [f])%list w1)
        as (outs & w' & Rest & Len & Each).
      exists (inr f :: outs), w'. rewrite Rest. simpl.
      rewrite <- app_assoc. split; [reflexivity|].
      split; [now rewrite Len|].
      intros [|k] o H; simpl in H.
      * injection H as <-. split; [simpl in *; lia | discriminate].
      * destruct (Each k o H) as (Ix' & Acc'). split; [lia | exact Acc'].
Qed.

End BulkRoute.

Section BulkResponse.

Variable cast : string -> option string.
Variable message : Error -> string.
Variable objectId : nat -> string.
Variables (clients : list ClientRecord) (users : list UserRecord).
Variable user : ReqUser.

Lemma Map_get_In {V} (key : V -> string) (l : list V) (id : string) :
  Map_get (map (fun v => (key v, v)) l) id <> None ->
  exists v, In v l /\ key v = id.
Proof.
  unfold Map_get. destruct (find _ _) as [[k v]|] eqn:F; [|intro H; now elim H].
  intros _. apply find_some in F as [H E]. simpl in E.
  apply String.eqb_eq in E. apply in_rev in H.
  apply in_map_iff in H as (v' & [= <- <-] & Hv). now exists v'.
Qed.

Lemma In_successesOf (outs : list (SuccessEntry + FailedEntry))
  (s : SuccessEntry) :
  In s (successesOf outs) -> exists k, nth_error outs k = Some (inl s).
Proof.
  induction outs as [|[s'|f] outs IH]; simpl; intro H.
  - contradiction.
  - destruct H as [<-|H]; [now exists 0|].
    destruct (IH H) as (k & Hk). now exists (S k).
  - destruct (IH H) as (k & Hk). now exists (S k).
Qed.

(** The bulk route always answers; when the request is valid and the two
    lookups are answered, with a summary of one outcome for each row. *)
Lemma post_cases_bulk_outcome
  (errors : list string) (rows : list CaseData) (w : World) :
  exists r w',
    post_cases_bulk cast message objectId clients users user errors rows w
    = (Ok r, w')
    /\ match r with
       | BulkFailure status _ _ =>
           (status = 400 /\ errors <> [] /\ w' = w)
           \/ (status = 500 /\ errors = [] /\ cases w' = cases w)
       | BulkSummary status ok total created failed successful failedRows =>
           errors = []
           /\ exists outs found lawyers,
                successful = successesOf outs
                /\ failedRows = failuresOf outs
                /\ List.length outs = List.length rows
                /\ total = List.length rows
                /\ created = List.length successful
                /\ failed = List.length failedRows
                /\ ok = Nat.ltb 0 created
                /\ status = (if Nat.eqb failed 0 then 201
                             else if Nat.ltb 0 created then 207 else 400)
                /\ (forall c, In c found -> In c clients)
                /\ (forall l, In l lawyers ->
                      In l users /\ (record_role l = "Lawyer"
                                     \/ record_role l = "Admin"))
                /\ forall k o, nth_error outs k = Some o ->
                     rowOf o = k
                     /\ forall s, o = inl s ->
                          exists row,
                            nth_error rows k = Some row
                            /\ rowAccepted user
                                 (map (fun c => (client_id c, c)) found)
                                 (map (fun l => (record_id l, l)) lawyers)
                                 row s
       end.
Proof.
  unfold post_cases_bulk.
  destruct errors as [|err errs].
  2:{ eexists _, _. split; [reflexivity|]. left. repeat split. discriminate. }
  unfold tryCatch, bind at 1, Client_find_in, bind at 1.
  destruct (castEach_outcome cast (nodup string_dec (map cd_clientId rows)) w)
    as [(cids & -> & _) | (-> & _)].
  2:{ eexists _, _. split; [reflexivity|]. right. repeat split. }
  unfold answered at 1.
  destruct (online w) eqn:Up1.
  2:{ eexists _, _. split; [reflexivity|]. right. repeat split. }
  unfold bind at 1, User_find_in, bind at 1.
  destruct (castEach_outcome cast
              (nodup string_dec (map cd_assignedLawyerId rows)) (asked w))
    as [(lids & -> & _) | (-> & _)].
  2:{ eexists _, _. split; [reflexivity|]. right. repeat split. }
  unfold answered at 1.
  destruct (online (asked w)) eqn:Up2.
  2:{ eexists _, _. split; [reflexivity|]. right. repeat split. }
  set (found := filter _ clients). set (lawyers := filter _ users).
  destruct (bulk_loop_outcome message objectId user
              (map (fun c => (client_id c, c)) found)
              (map (fun l => (record_id l, l)) lawyers)
              rows 0 [] [] (asked (asked w)))
    as (outs & w' & Run & Len & Each).
  unfold bind. rewrite Run. simpl.
  eexists _, _. split; [reflexivity|]. split; [reflexivity|].
  exists outs, found, lawyers. repeat split; auto.
  - intros c Hc. apply filter_In in Hc. tauto.
  - apply filter_In in H. tauto.
  - apply filter_In in H as [_ H]. apply andb_true_iff in H as [_ H].
    apply orb_true_iff in H as [H|H]; apply String.eqb_eq in H; auto.
  - now destruct (Each k o H).
  - intros s E. destruct (Each k o H) as [_ Acc]. now apply Acc.
Qed.

End BulkResponse.

(** X14. The bulk route always answers, and a summary accounts for every
    row exactly once: the entries of the two lists are the successes and
    the failures of one list of outcomes, the k-th of which reports row
    k, so that created + failed = total; the status is 201 when no row
    failed, 207 when some failed and some succeeded, 400 when all
    failed, and the success flag says whether a row succeeded. *)
Theorem bulk_reports_every_row
  (cast : string -> option string)
  (message : Error -> string) (objectId : nat -> string)
  (clients : list ClientRecord) (users : list UserRecord)
  (user : ReqUser) (errors : list string) (rows : list CaseData) (w : World) :
  exists r w',
    post_cases_bulk cast message objectId clients users user errors rows w
    = (Ok r, w')
    /\ match r with
       | BulkFailure status _ _ =>
           (status = 400 /\ errors <> [])
           \/ (status = 500 /\ errors = [] /\ cases w' = cases w)
       | BulkSummary status ok total created failed successful failedRows =>
           total = List.length rows
           /\ created = List.length successful
           /\ failed = List.length failedRows
           /\ created + failed = total
           /\ (status = 201 <-> failed = 0)
           /\ (status = 207 <-> 0 < failed /\ 0 < created)
           /\ (status = 400 <-> 0 < failed /\ created = 0)
           /\ (ok = true <-> 0 < created)
           /\ exists outs,
                List.length outs = total
                /\ (forall k o, nth_error outs k = Some o -> rowOf o = k)
                /\ successful = successesOf outs
                /\ failedRows = failuresOf outs
       end.
Proof.
  destruct (post_cases_bulk_outcome cast message objectId clients users user
              errors rows w) as (r & w' & Run & Out).
  exists r, w'. split; [exact Run|].
  destruct r as [status msg errs | status ok total created failed successful
                                   failedRows].
  - destruct Out as [(S4 & E & _) | (S5 & E & Cs)]; auto.
  - destruct Out as (_ & outs & found & lawyers & -> & -> & Len & -> & ->
                     & -> & -> & -> & _ & _ & Each).
    pose proof (outcomes_length outs) as Sum.
    repeat split; try lia.
    + destruct (List.length (failuresOf outs)); simpl; [lia|].
      destruct (List.length (successesOf outs)); simpl; discriminate.
    + intros ->. reflexivity.
    + destruct (List.length (failuresOf outs)); simpl; [discriminate | lia].
    + destruct (List.length (failuresOf outs)); simpl; [discriminate|].
      destruct (List.length (successesOf outs)); simpl; [discriminate | lia].
    + intros [F C]. destruct (List.length (failuresOf outs)); [lia|].
      destruct (List.length (successesOf outs)); [lia | reflexivity].
    + destruct (List.length (failuresOf outs)); simpl; [discriminate | lia].
    + destruct (List.length (failuresOf outs)); simpl; [discriminate|].
      destruct (List.length (successesOf outs)); simpl; [lia | discriminate].
    + intros [F C]. destruct (List.length (failuresOf outs)); [lia|].
      rewrite C. reflexivity.
    + destruct (List.length (successesOf outs)); simpl; [discriminate | lia].
    + intro C. destruct (List.length (successesOf outs)); [lia | reflexivity].
    + exists outs. repeat split; auto. intros k o H. now destruct (Each k o H).
Qed.

(** X15. Every row that the bulk route reports as created was one that
    the user might create: its client is in the collection, its assigned
    lawyer is a user with the role Lawyer or Admin, and the lawyer is the
    user unless the user is Admin; the entry carries the index and the
    title of its row and a case number that is not empty. *)
Theorem bulk_accepts_only_authorized_rows
  (cast : string -> option string)
  (message : Error -> string) (objectId : nat -> string)
  (clients : list ClientRecord) (users : list UserRecord)
  (user : ReqUser) (errors : list string) (rows : list CaseData)
  (w w' : World) (status : nat) (ok : bool) (total created failed : nat)
  (successful : list SuccessEntry) (failedRows : list FailedEntry) :
  post_cases_bulk cast message objectId clients users user errors rows w
  = (Ok (BulkSummary status ok total created failed successful failedRows),
     w') ->
  forall s, In s successful ->
    exists row,
      nth_error rows (s_index s) = Some row
      /\ s_title s = cd_title row
      /\ s_caseNumber s <> ""
      /\ (exists c, In c clients /\ client_id c = cd_clientId row)
      /\ (exists l, In l users /\ record_id l = cd_assignedLawyerId row
                    /\ (record_role l = "Lawyer" \/ record_role l = "Admin"))
      /\ (role user = "Admin" \/ cd_assignedLawyerId row = user_id user).
Proof.
  intros Run s Hs.
  destruct (post_cases_bulk_outcome cast message objectId clients users user
              errors rows w) as (r & w2 & Run2 & Out).
  rewrite Run in Run2. injection Run2 as <- <-.
  destruct Out as (_ & outs & found & lawyers & -> & _ & _ & _ & _ & _ & _
                   & _ & Fc & Fl & Each).
  destruct (In_successesOf outs s Hs) as (k & Hk).
  destruct (Each k _ Hk) as (Ix & Acc). simpl in Ix.
  destruct (Acc s eq_refl) as (row & Hrow & Mc & Ml & Self & T & N).
  exists row. rewrite Ix. split; [exact Hrow|]. split; [exact T|].
  split; [exact N|].
  destruct (Map_get_In client_id found _ Mc) as (c & Hc & Ec).
  destruct (Map_get_In record_id lawyers _ Ml) as (l & Hl & El).
  split; [exists c; auto|]. split; [|exact Self].
  exists l. destruct (Fl l Hl). auto.
Qed.

Lemma bulk_accepts_only_authorized_rows_witness :
  exists row,
    nth_error threeRows 0 = Some row
    /\ "Lease dispute" = cd_title row
    /\ "CASE-2024-0001" <> ""
    /\ (exists c, In c firmClients /\ client_id c = cd_clientId row)
    /\ (exists l, In l firmUsers /\ record_id l = cd_assignedLawyerId row
                  /\ (record_role l = "Lawyer" \/ record_role l = "Admin"))
    /\ (role counselLee = "Admin"
        \/ cd_assignedLawyerId row = user_id counselLee).
Proof.
  apply (bulk_accepts_only_authorized_rows hex24 driverText rowId firmClients
           firmUsers counselLee [] threeRows world0
           (snd (post_cases_bulk hex24 driverText rowId firmClients firmUsers
                   counselLee [] threeRows world0))
           207 true 3 1 2
           [mkSuccess 0 "id-0" "CASE-2024-0001" "Lease dispute"]
           [mkFailed 1 "Boundary" "You can only assign cases to yourself";
            mkFailed 2 "Probate" "Client not found"]
           eq_refl
           (mkSuccess 0 "id-0" "CASE-2024-0001" "Lease dispute")).
  left. reflexivity.
Defined.

Example bulk_of_three_rows :
  fst (post_cases_bulk hex24 driverText rowId firmClients firmUsers
                       counselLee [] threeRows world0)
  = Ok (BulkSummary 207 true 3 1 2
          [mkSuccess 0 "id-0" "CASE-2024-0001" "Lease dispute"]
          [mkFailed 1 "Boundary" "You can only assign cases to yourself";
           mkFailed 2 "Probate" "Client not found"]).
Proof. vm_compute. reflexivity. Qed.

Section BulkNumbers.

Variable message : Error -> string.
Variable objectId : nat -> string.
Variable user : ReqUser.
Variable year : Z.

Lemma bulk_row_numbered
  (clientMap : list (string * ClientRecord))
  (lawyerMap : list (string * UserRecord))
  (i : nat) (row : CaseData) (m : nat) (w : World) :
  (forall k, answers w k = true) ->
  (forall k, fullYear (clock w k) = year) ->
  upTo Case year m w ->
  exists o w',
    bulk_row message objectId user clientMap lawyerMap i row w = (Ok o, w')
    /\ answers w' = answers w /\ clock w' = clock w
    /\ match o with
       | inl s =>
           s_caseNumber s = formatIdentifier Case year (Z.of_nat (S m))
           /\ upTo Case year (S m) w'
           /\ List.length (cases w') = S (List.length (cases w))
       | inr f =>
           turnedDown message [row] f
           /\ upTo Case year m w' /\ cases w' = cases w
       end.
Proof.
  intros Up Year Inv. unfold bulk_row, tryCatch, turnedDown, refusal.
  destruct (Map_get clientMap (cd_clientId row)).
  2:{ eexists _, _. split; [reflexivity|]. simpl. auto 10. }
  destruct (Map_get lawyerMap (cd_assignedLawyerId row)).
  2:{ eexists _, _. split; [reflexivity|]. simpl. auto 10. }
  destruct (negb (String.eqb (role user) "Admin")
            && negb (String.eqb (cd_assignedLawyerId row) (user_id user))).
  { eexists _, _. split; [reflexivity|]. simpl. auto 10. }
  unfold bind at 1, newDate.
  change (mkCase true None (cd_title row) (cd_others row)) with (newCase row).
  destruct (validates (ACase (newCase row))) eqn:V.
  2:{ unfold bind at 1, save_case, bind at 1.
      rewrite create_fail by exact V.
      eexists _, _. split; [reflexivity|]. simpl.
      split; [reflexivity|]. split; [reflexivity|]. split.
      - right. exists row. split; [now left|]. now split.
      - split; [exact Inv | reflexivity]. }
  destruct (create_next Case year m (ACase (newCase row))
              (tick w) eq_refl eq_refl eq_refl V Up Year Inv)
    as (e' & w2 & Run & Id & Ans & Clk & Inv2).
  simpl in Ans, Clk.
  destruct (save_case_outcome (cd_title row) (cd_others row) (tick w))
    as [(err & w1 & Fail & _) | (n & w1 & Done & NE & _ & _ & Cs & _)].
  - exfalso. unfold save_case, bind in Fail.
    change (mkCase true None (cd_title row) (cd_others row))
      with (newCase row) in Fail.
    rewrite Run in Fail. destruct e'; discriminate Fail.
  - change (mkCase true None (cd_title row) (cd_others row))
      with (newCase row) in Done.
    unfold bind at 1. rewrite Done.
    unfold save_case, bind in Done. rewrite Run in Done.
    destruct e' as [c'|i']; [|discriminate Done].
    injection Done as -> <-. cbn [identifier caseNumber] in Id.
    apply Some_inj in Id. subst n.
    unfold bind, answered, online. simpl. rewrite Ans, Up. simpl.
    rewrite Ans, Up. simpl.
    eexists _, _. split; [reflexivity|]. simpl.
    split; [exact Ans|]. split; [exact Clk|]. split; [reflexivity|].
    split; [exact Inv2|]. rewrite Cs, length_app. simpl. lia.
Qed.

Lemma turnedDown_more (rows rows' : list CaseData) (f : FailedEntry) :
  (forall row, In row rows -> In row rows') ->
  turnedDown message rows f -> turnedDown message rows' f.
Proof.
  intros Sub [R | (row & H & V & E)]; [now left|].
  right. exists row. auto.
Qed.

Lemma bulk_loop_numbered
  (clientMap : list (string * ClientRecord))
  (lawyerMap : list (string * UserRecord))
  (rows : list CaseData) :
  forall (i m : nat) (success : list SuccessEntry) (failed : list FailedEntry)
         (w : World),
    (forall k, answers w k = true) ->
    (forall k, fullYear (clock w k) = year) ->
    upTo Case year m w ->
    exists outs w',
      bulk_loop message objectId user clientMap lawyerMap i rows success
                failed w
      = (Ok ((success ++ successesOf outs)%list,
             (failed ++ failuresOf outs)%list), w')
      /\ map s_caseNumber (successesOf outs)
         = map (fun k => formatIdentifier Case year (Z.of_nat k))
               (seq (S m) (List.length (successesOf outs)))
      /\ Forall (turnedDown message rows) (failuresOf outs)
      /\ upTo Case year (m + List.length (successesOf outs)) w'
      /\ List.length (cases w')
         = List.length (cases w) + List.length (successesOf outs).
Proof.
  induction rows as [|row rows IH]; intros i m success failed w Up Year Inv.
  - exists [], w. simpl. rewrite !app_nil_r, !Nat.add_0_r.
    split; [reflexivity|]. split; [reflexivity|].
    split; [constructor|]. split; [exact Inv | reflexivity].
  - destruct (bulk_row_numbered clientMap lawyerMap i row m w Up Year Inv)
      as (o & w1 & Run & Ans & Clk & Out).
    assert (forall k, answers w1 k = true) as Up1
        by (intro k; now rewrite Ans).
    assert (forall k, fullYear (clock w1 k) = year) as Year1
        by (intro k; now rewrite Clk).
    assert (forall fs, Forall (turnedDown message rows) fs ->
                       Forall (turnedDown message (row :: rows)) fs) as More.
    { intros fs F. eapply Forall_impl; [|exact F].
      intro f. apply turnedDown_more. intros r H. now right. }
    simpl. unfold bind. rewrite Run. destruct o as [s|f].
    + destruct Out as (Num & Inv1 & Len1).
      destruct (IH (S i) (S m) (success ++ [s])%list failed w1 Up1 Year1 Inv1)
        as (outs & w' & Rest & Nums & Refs & Inv' & Len').
      exists (inl s :: outs), w'. rewrite Rest. simpl.
      rewrite <- app_assoc. split; [reflexivity|].
      split; [now rewrite Num, Nums|]. split; [now apply More|].
      split; [now rewrite Nat.add_succ_r | lia].
    + destruct Out as (Ref & Inv1 & Cs1).
      destruct (IH (S i) m success (failed ++ [f])%list w1 Up1 Year1 Inv1)
        as (outs & w' & Rest & Nums & Refs & Inv' & Len').
      exists (inr f :: outs), w'. rewrite Rest. simpl.
      rewrite <- app_assoc. split; [reflexivity|].
      split; [exact Nums|]. split.
      * constructor; [|now apply More].
        eapply turnedDown_more; [|exact Ref]. intros r [<- | []]. now left.
      * split; [exact Inv'|]. now rewrite Len', Cs1.
Qed.

Lemma castEach_all (cast : string -> option string) (ids : list string)
  (w : World) :
  Forall (fun id => cast id <> None) ids ->
  exists oids, forEach (castObjectId cast) ids w = (Ok oids, w).
Proof.
  intro All.
  destruct (castEach_outcome cast ids w) as [(oids & Run & _) | (_ & id & H & C)].
  - now exists oids.
  - rewrite Forall_forall in All. now elim (All id H).
Qed.

End BulkNumbers.

(** X16. A bulk request without validation errors, all of whose client
    and lawyer ids cast, against a store that answers, in a year of
    which the collection holds no case number: the route answers with a
    summary, the rows that are created get the numbers of the sequences
    1, 2, ... of that year in the order of the rows, a row that is not
    created takes no number and is reported with one of the three
    refusals or, if its document does not pass validation, with the text
    of that error (so that all failures are refusals when every document
    passes), and the collection grows by exactly the cases that the
    summary counts as created. *)
Theorem bulk_numbers_accepted_rows_in_order
  (cast : string -> option string)
  (message : Error -> string) (objectId : nat -> string)
  (clients : list ClientRecord) (users : list UserRecord)
  (user : ReqUser) (rows : list CaseData) (year : Z) (w : World) :
  Forall (fun row => cast (cd_clientId row) <> None
                     /\ cast (cd_assignedLawyerId row) <> None) rows ->
  (forall k, answers w k = true) ->
  (forall k, fullYear (clock w k) = year) ->
  countOf Case year w = 0%Z ->
  exists status ok created failed successful failedRows w',
    post_cases_bulk cast message objectId clients users user [] rows w
    = (Ok (BulkSummary status ok (List.length rows) created failed
                       successful failedRows), w')
    /\ created = List.length successful
    /\ map s_caseNumber successful
       = map (fun k => formatIdentifier Case year (Z.of_nat k)) (seq 1 created)
    /\ Forall (turnedDown message rows) failedRows
    /\ (Forall (fun row => validates (ACase (newCase row)) = true) rows ->
        Forall (fun f => refusal (f_error f)) failedRows)
    /\ List.length (cases w') = List.length (cases w) + created
    /\ countOf Case year w' = Z.of_nat created.
Proof.
  intros Ids Up Year Empty.
  assert (forall (field : CaseData -> string),
            (forall row, In row rows -> cast (field row) <> None) ->
            forall w0, exists oids,
              forEach (castObjectId cast) (nodup string_dec (map field rows)) w0
              = (Ok oids, w0)) as Casts.
  { intros field All w0. apply castEach_all. apply Forall_forall.
    intros id H. apply nodup_In in H. apply in_map_iff in H as (row & <- & H).
    now apply All. }
  rewrite Forall_forall in Ids.
  destruct (Casts cd_clientId (fun row H => proj1 (Ids row H)) w)
    as (cids & Cc).
  destruct (Casts cd_assignedLawyerId (fun row H => proj2 (Ids row H))
              (asked w)) as (lids & Cl).
  unfold post_cases_bulk, tryCatch, bind at 1, Client_find_in, bind at 1.
  rewrite Cc. unfold answered at 1, online. rewrite Up.
  unfold bind at 1, User_find_in, bind at 1. rewrite Cl.
  unfold answered at 1, online. simpl answers. rewrite Up.
  set (found := filter _ clients). set (lawyers := filter _ users).
  destruct (bulk_loop_numbered message objectId user year
              (map (fun c => (client_id c, c)) found)
              (map (fun l => (record_id l, l)) lawyers)
              rows 0 0 [] [] (asked (asked w)) Up Year
              (upTo_zero Case year w Empty))
    as (outs & w' & Run & Nums & Refs & (Count & _) & Len).
  unfold bind. rewrite Run. simpl.
  eexists _, _, _, _, _, _, _. split; [reflexivity|].
  repeat split; auto.
  intro Valid. rewrite Forall_forall in Valid.
  eapply Forall_impl; [|exact Refs].
  intros f [R | (row & H & V & _)]; [exact R|].
  elim (eq_true_false_abs _ (Valid row H) V).
Qed.

Lemma bulk_numbers_accepted_rows_in_order_witness :
  exists status ok created failed successful failedRows w',
    post_cases_bulk hex24 driverText rowId firmClients firmUsers adminRoot []
                    threeRows world0
    = (Ok (BulkSummary status ok (List.length threeRows) created failed
                       successful failedRows), w')
    /\ created = List.length successful
    /\ map s_caseNumber successful
       = map (fun k => formatIdentifier Case 2024 (Z.of_nat k)) (seq 1 created)
    /\ Forall (turnedDown driverText threeRows) failedRows
    /\ (Forall (fun row => validates (ACase (newCase row)) = true) threeRows ->
        Forall (fun f => refusal (f_error f)) failedRows)
    /\ List.length (cases w') = List.length (cases world0) + created
    /\ countOf Case 2024 w' = Z.of_nat created.
Proof.
  apply (bulk_numbers_accepted_rows_in_order hex24 driverText rowId
           firmClients firmUsers adminRoot threeRows 2024 world0).
  - repeat constructor; discriminate.
  - reflexivity.
  - reflexivity.
  - reflexivity.
Defined.

Example bulk_by_an_admin :
  fst (post_cases_bulk hex24 driverText rowId firmClients firmUsers adminRoot
         [] threeRows world0)
  = Ok (BulkSummary 207 true 3 2 1
          [mkSuccess 0 "id-0" "CASE-2024-0001" "Lease dispute";
           mkSuccess 1 "id-1" "CASE-2024-0002" "Boundary"]
          [mkFailed 2 "Probate" "Client not found"]).
Proof. vm_compute. reflexivity. Qed.

(** A row whose save is rejected is reported with the text of the
    error, and the rows after it fare no better. *)
Example bulk_against_a_taken_number :
  fst (post_cases_bulk hex24 driverText rowId firmClients firmUsers adminRoot
         [] threeRows
         (worldWith [mkCase false (Some "CASE-2024-0002") "on file" true] []))
  = Ok (BulkSummary 400 false 3 0 3 []
          [mkFailed 0 "Lease dispute" "E11000 duplicate key error";
           mkFailed 1 "Boundary" "E11000 duplicate key error";
           mkFailed 2 "Probate" "Client not found"]).
Proof. vm_compute. reflexivity. Qed.

(** One id that is no [ObjectId] and the whole request is answered 500,
    nothing created; a row whose document does not pass validation
    fails alone and takes no number. *)
Example bulk_with_a_malformed_id :
  post_cases_bulk hex24 driverText rowId firmClients firmUsers adminRoot []
    [mkCaseData "Lease dispute" idBob idLee true;
     mkCaseData "Probate" "c-9" idLee true] world0
  = (Ok (BulkFailure 500 "Server error" ["Cast to ObjectId failed"]), world0).
Proof. vm_compute. reflexivity. Qed.

Example bulk_with_an_invalid_document :
  fst (post_cases_bulk hex24 driverText rowId firmClients firmUsers adminRoot
         []
         [mkCaseData "Lease dispute" idBob idLee false;
          mkCaseData "Boundary" idAdaClient idKim true] world0)
  = Ok (BulkSummary 207 true 2 1 1
          [mkSuccess 1 "id-1" "CASE-2024-0001" "Boundary"]
          [mkFailed 0 "Lease dispute" "Case validation failed"]).
Proof. vm_compute. reflexivity. Qed.

(** An id in upper case casts and finds its client, but the map of the
    loop is keyed by the id as [toString()] writes it: the row is turned
    down. *)
Example bulk_with_an_upper_case_id :
  fst (post_cases_bulk hex24 driverText rowId firmClients firmUsers adminRoot
         [] [mkCaseData "Lease dispute" "650C0000000000000000C001" idLee true]
         world0)
  = Ok (BulkSummary 400 false 1 0 1 []
          [mkFailed 0 "Lease dispute" "Client not found"]).
Proof. vm_compute. reflexivity. Qed.
